(** * goat-core: tool-execution core, shallow embedding and verified properties

    The development follows the Python sources:
    - [src/crud/crud_geoanalysis.py]  (aggregation and origin-destination tools)
    - [src/crud/crud_isochrone.py]    (isochrone starting-point staging)
    - [src/crud/crud_layer.py]        (feature-count guard, file import,
      column lookup of the statistics endpoints)
    - [src/schemas/toolbox_base.py], [src/schemas/active_mobility.py]
      (request validators)
    - [src/db/models/layer.py]        (table names of the layers)
    - [src/core/print.py]             (colours of the map styles)
    - [src/endpoints/v2/user.py]      (user endpoints)

    Python dictionaries are finite maps, f-strings are string concatenations,
    exceptions are the left summand of a sum type, and the database session is
    an explicit state that every statement is threaded through. *)

From Stdlib Require Import Ascii QArith Qround Qabs Lqa.
From stdpp Require Import base decidable option list numbers strings pretty gmap.

Open Scope Z_scope.

(** ** Python helpers *)

Module Py.

(** [s.split("_")[0]]: the characters in front of the first underscore. *)
Fixpoint split_head (s : string) : string :=
  match s with
  | EmptyString => EmptyString
  | String c s' =>
      if Ascii.eqb c "_"%char then EmptyString else String c (split_head s')
  end.

(** [l[i : i + n]]: slices never raise, they are clipped to the list. *)
Definition slice {A} (l : list A) (i n : nat) : list A := take n (drop i l).

(** [range(0, len, step)] for a positive step, as the list of start indices.
    The fuel is [len]: at most [len] indices are produced. *)
Fixpoint range_from (fuel start len step : nat) : list nat :=
  match fuel with
  | O => []
  | S fuel' =>
      if decide (start < len)%nat
      then start :: range_from fuel' (start + step) len step
      else []
  end.

Definition range_step (len step : nat) : list nat := range_from len 0 len step.

(** Truthiness of an optional list: [None] and [[]] are falsy. *)
Definition truthy {A} (o : option (list A)) : bool :=
  match o with
  | Some (_ :: _) => true
  | _ => false
  end.

(** Truthiness of an optional object whose instances are always truthy. *)
Definition given {A} (o : option A) : bool :=
  match o with Some _ => true | None => false end.

End Py.

(** ** Generic attribute slots *)

Module Slot.

(** [family + f"_attr{n}"] *)
Definition slot (family : string) (n : nat) : string :=
  family +:+ "_attr" +:+ pretty n.

End Slot.

(** ** Origin-destination: attribute mapping of the relation layer
    ([CRUDOriginDestination.origin_destination], lines 614-632) *)

Module ODMapping.
Import Slot.

(** The dictionary literal with the origin and destination slots. *)
Definition id_slots (mapped_unique_id_column : string) : gmap string string :=
  <[slot (Py.split_head mapped_unique_id_column) 2 := "destination"]>
    (<[slot (Py.split_head mapped_unique_id_column) 1 := "origin"]> ∅).

(** [while family_attr{count_attr} in mapping: count_attr += 1], with fuel. *)
Fixpoint probe (fuel : nat) (family : string) (m : gmap string string)
    (count_attr : nat) : option nat :=
  match fuel with
  | O => None
  | S fuel' =>
      if decide (is_Some (m !! slot family count_attr))
      then probe fuel' family m (S count_attr)
      else Some count_attr
  end.

(** The slot number that receives the weight. *)
Definition weight_slot_number (mapped_unique_id_column mapped_weight_column : string)
    : option nat :=
  let m := id_slots mapped_unique_id_column in
  let family := Py.split_head mapped_weight_column in
  if decide (is_Some (m !! slot family 1))
  then probe (S (size m)) family m 1
  else Some 1%nat.

Definition attribute_mapping_relation
    (mapped_unique_id_column mapped_weight_column : string)
    : option (gmap string string) :=
  n ← weight_slot_number mapped_unique_id_column mapped_weight_column;
  Some (<[slot (Py.split_head mapped_weight_column) n := "weight"]>
          (id_slots mapped_unique_id_column)).

End ODMapping.

(** ** Exceptions and the session monad

    Every coroutine of the tool classes runs against one database session.
    A computation takes the database state and returns either the raised
    exception or its result, together with the state reached. *)

Module Exec.

Inductive exception :=
| ColumnTypeError (msg : string)
| OutOfGeofenceError (msg : string)
| HTTPException (status_code : Z) (detail : string)
| ValueError (msg : string)
| TypeError (msg : string)
| UnboundLocalError (name : string)
| LookupError (what : string)
| DatabaseError (what : string).

Definition M (S A : Type) : Type := S → (exception + A) * S.

Definition ret {S A} (a : A) : M S A := λ s, (inr a, s).
Definition raise {S A} (e : exception) : M S A := λ s, (inl e, s).
Definition bind {S A B} (m : M S A) (k : A → M S B) : M S B :=
  λ s, match m s with
       | (inl e, s') => (inl e, s')
       | (inr a, s') => k a s'
       end.
Definition get {S} : M S S := λ s, (inr s, s).
Definition modify {S} (f : S → S) : M S unit := λ s, (inr tt, f s).

(** Lifting of a fallible lookup. *)
Definition lift {S A} (r : exception + A) : M S A := λ s, (r, s).

(** [for x in xs: body(x)] *)
Fixpoint for_each {S A} (xs : list A) (body : A → M S unit) : M S unit :=
  match xs with
  | [] => ret tt
  | x :: xs' => bind (body x) (λ _, for_each xs' body)
  end.

End Exec.

Notation "'let*' x ':=' m 'in' k" := (Exec.bind m (fun x => k))
  (at level 10, x name, m at level 100, k at level 200, only parsing).

(** ** Origin-destination tool ([CRUDOriginDestination]) *)

Module OD.
Import Exec.

(** A feature of a user-data table: its geometry and its generic attribute
    columns.  A column that is absent from [attrs] is SQL NULL. *)
Record feature {G : Type} := {
  geom : G;
  attrs : gmap string Z;
}.
Arguments feature : clear implicits.

Record layer_project := {
  layer_id : string;
  table_name : string;
  attribute_mapping : gmap string string;
}.

Record IOriginDestination := {
  tool_type : string;
  geometry_layer_project_id : Z;
  origin_destination_matrix_layer_project_id : Z;
  unique_id_column : string;
  origin_column : string;
  destination_column : string;
  weight_column : string;
}.

Record relation_row {G : Type} := {
  rel_layer_id : string;
  rel_geom : G;
  rel_origin : option Z;
  rel_destination : option Z;
  rel_weight : option Z;
}.
Arguments relation_row : clear implicits.

Record point_row {G : Type} := {
  pt_layer_id : string;
  pt_geom : G;
  pt_weight : option Z;
}.
Arguments point_row : clear implicits.

Record IFeatureLayerToolCreate := {
  id : string;
  name : string;
  feature_layer_geometry_type : string;
  layer_attribute_mapping : gmap string string;
}.

Inductive statement :=
| CreateTempTableLayer (source_layer_id : string)
| CreateIndex (table : string) (columns : list string)
| Commit
| InsertRelations
| InsertPoints
| CreateFeatureLayerTool (layer : IFeatureLayerToolCreate).

Record db {G : Type} := {
  user_data : gmap string (list (feature G));
  temporal : gmap string (list (feature G));
  result_table_relation : list (relation_row G);
  result_table_point : list (point_row G);
  feature_layers : list IFeatureLayerToolCreate;
}.
Arguments db : clear implicits.

(** SQL [=]: never true when one side is NULL. *)
Definition sql_eq (a b : option Z) : bool :=
  match a, b with
  | Some x, Some y => bool_decide (x = y)
  | _, _ => false
  end.

(** SQL [SUM]: NULL inputs are skipped, no non-NULL input gives NULL. *)
Definition SUM (vs : list (option Z)) : option Z :=
  match omap (λ v, v) vs with
  | [] => None
  | z :: zs => Some (foldr Z.add 0 (z :: zs))
  end.

(** [(ARRAY_AGG(e))[1]]: the first value of the group. *)
Definition first_of {A} (l : list A) : option A := head l.

Section od.
Context {G : Type}.

(** [OgrPostgresType] members ([src.schemas.layer]): the type-family names. *)
Variables (Integer Real Integer64 : string).

(** [src.utils.search_value]: the slot whose user-facing name is the given
    column; [None] when the helper raises. *)
Variable search_value : gmap string string → string → option string.

(** [CRUDToolBase.get_layers_project]: the two layers of the request. *)
Variable get_layers_project :
  IOriginDestination → exception + (layer_project * layer_project).

(** Name of the job-scoped copy of a layer. *)
Variable temp_table_name : layer_project → string.

(** PostGIS functions. *)
Variables (ST_Centroid : G → G) (ST_MakeLine : G → G → G).

(** [DefaultResultLayerName[...].value] ([src.schemas.toolbox_base]). *)
Variable DefaultResultLayerName : string → string.

(** Identifiers drawn for the two result layers. *)
Variables (result_layer_relation_id result_layer_point_id : string).

(** The statements that the database rejects. *)
Variable fails : statement → bool.

Definition execute (stmt : statement) (effect : db G → db G) : M (db G) unit :=
  λ d, if fails stmt then (inl (DatabaseError "execute"), d)
       else (inr tt, effect d).

Definition lookup_column (m : gmap string string) (column : string)
    : M (db G) string :=
  match search_value m column with
  | Some slot => ret slot
  | None => raise (LookupError column)
  end.

Definition id_mismatch_message : string :=
  "The unique_id, origin and destination column must be of the same type".

(** Lines 562-601: the two column-type checks. *)
Definition check_id_columns
    (mapped_unique_id_column mapped_origin_column mapped_destination_column : string)
    : M (db G) unit :=
  if decide (1 < size ({[ Py.split_head mapped_unique_id_column;
                          Py.split_head mapped_origin_column;
                          Py.split_head mapped_destination_column ]} : gset string))%nat
  then raise (ColumnTypeError id_mismatch_message)
  else ret tt.

Definition check_weight_column (mapped_weight_column : string) : M (db G) unit :=
  if decide (Py.split_head mapped_weight_column ∈ [Integer; Real; Integer64])
  then ret tt
  else raise (ColumnTypeError
    ("Mapped weight field is not " +:+ Integer +:+ ", " +:+ Real +:+ ", "
       +:+ Integer64 +:+ ".")).

(** The three identifier columns lie in one type family. *)
Definition same_family (a b c : string) : Prop :=
  Py.split_head a = Py.split_head b ∧ Py.split_head b = Py.split_head c.

(** The weight column lies in one of the numeric type families. *)
Definition numeric_family (w : string) : Prop :=
  Py.split_head w ∈ [Integer; Real; Integer64].

(** Modelled from the spec: [CRUDToolBase.create_temp_table_layer]
    ([src.core.tool] is not among the sources).  It allocates the job-scoped
    scratch table of a layer and fills it with the layer's rows. *)
Definition create_temp_table_layer (layer : layer_project) : M (db G) string :=
  let* _ := execute (CreateTempTableLayer (layer_id layer))
    (λ d, {| user_data := user_data d;
             temporal := <[temp_table_name layer :=
                             default [] (user_data d !! layer_id layer)]> (temporal d);
             result_table_relation := result_table_relation d;
             result_table_point := result_table_point d;
             feature_layers := feature_layers d |}) in
  ret (temp_table_name layer).

(** Rows of [FROM geometry origin, geometry destination, matrix matrix WHERE
    origin.uid = matrix.origin AND destination.uid = matrix.destination]. *)
Definition relation_join (uid o_col d_col : string)
    (geometry matrix : list (feature G))
    : list (feature G * feature G * feature G) :=
  origin ← geometry;
  destination ← geometry;
  m ← matrix;
  if sql_eq (attrs origin !! uid) (attrs m !! o_col)
     && sql_eq (attrs destination !! uid) (attrs m !! d_col)
  then [(origin, destination, m)] else [].

(** The [GROUP BY matrix.origin, matrix.destination] key of a joined row. *)
Definition relation_key (o_col d_col : string)
    (r : feature G * feature G * feature G) : option Z * option Z :=
  (attrs r.2 !! o_col, attrs r.2 !! d_col).

Definition relation_group (o_col d_col : string) (k : option Z * option Z)
    (joined : list (feature G * feature G * feature G)) :=
  filter (λ r, relation_key o_col d_col r = k) joined.

(** The [SELECT] list of [sql_query_relations] for one group. *)
Definition relation_select (o_col d_col w_col : string)
    (group : list (feature G * feature G * feature G)) : option (relation_row G) :=
  r ← first_of group;
  Some {| rel_layer_id := result_layer_relation_id;
          rel_geom := ST_MakeLine (ST_Centroid (geom r.1.1)) (ST_Centroid (geom r.1.2));
          rel_origin := attrs r.2 !! o_col;
          rel_destination := attrs r.2 !! d_col;
          rel_weight := SUM ((λ r, attrs r.2 !! w_col) <$> group) |}.

(** Lines 663-673: [sql_query_relations]. *)
Definition sql_query_relations (uid o_col d_col w_col : string)
    (geometry matrix : list (feature G)) : list (relation_row G) :=
  let joined := relation_join uid o_col d_col geometry matrix in
  omap (λ k, relation_select o_col d_col w_col (relation_group o_col d_col k joined))
       (remove_dups (relation_key o_col d_col <$> joined)).







(** Lines 677-689: [sql_query_points]. *)
Definition sql_query_points (uid d_col w_col : string)
    (geometry matrix : list (feature G)) : list (point_row G) :=
  let joined : list (feature G * feature G) :=
    g ← geometry; m ← matrix;
    if sql_eq (attrs g !! uid) (attrs m !! d_col) then [(g, m)] else [] in
  let grouped : list (option Z * option Z) :=
    (λ k, (k, SUM ((λ r, attrs r.2 !! w_col) <$>
                     filter (λ r, attrs r.1 !! uid = k) joined)))
      <$> remove_dups ((λ r, attrs r.1 !! uid) <$> joined) in
  g ← geometry; gg ← grouped;
  if sql_eq (attrs g !! uid) gg.1
  then [{| pt_layer_id := result_layer_point_id;
           pt_geom := ST_Centroid (geom g);
           pt_weight := gg.2 |}]
  else [].



(** Lines 603-640: the descriptors of the two result layers. *)
Definition result_layer_point (params : IOriginDestination)
    (mapped_weight_column : string) : IFeatureLayerToolCreate :=
  {| id := result_layer_point_id;
     name := DefaultResultLayerName (tool_type params +:+ "_point");
     feature_layer_geometry_type := "point";
     layer_attribute_mapping :=
       {[ Slot.slot (Py.split_head mapped_weight_column) 1 := "weight" ]} |}.

Definition result_layer_relation (params : IOriginDestination)
    (attribute_mapping_relation : gmap string string) : IFeatureLayerToolCreate :=
  {| id := result_layer_relation_id;
     name := DefaultResultLayerName (tool_type params +:+ "_relation");
     feature_layer_geometry_type := "line";
     layer_attribute_mapping := attribute_mapping_relation |}.

Definition table (d : db G) (name : string) : list (feature G) :=
  default [] (temporal d !! name).

Definition insert_relations (rows : list (relation_row G)) (d : db G) : db G :=
  {| user_data := user_data d; temporal := temporal d;
     result_table_relation := result_table_relation d ++ rows;
     result_table_point := result_table_point d;
     feature_layers := feature_layers d |}.

Definition insert_points (rows : list (point_row G)) (d : db G) : db G :=
  {| user_data := user_data d; temporal := temporal d;
     result_table_relation := result_table_relation d;
     result_table_point := result_table_point d ++ rows;
     feature_layers := feature_layers d |}.

Definition create_feature_layer_tool (layer_in : IFeatureLayerToolCreate)
    : M (db G) unit :=
  execute (CreateFeatureLayerTool layer_in)
    (λ d, {| user_data := user_data d; temporal := temporal d;
             result_table_relation := result_table_relation d;
             result_table_point := result_table_point d;
             feature_layers := feature_layers d ++ [layer_in] |}).

(** [CRUDOriginDestination.origin_destination], lines 553-705. *)
Definition origin_destination (params : IOriginDestination)
    : M (db G) (string * string) :=
  let* layers_project := lift (get_layers_project params) in
  let geometry_layer_project := layers_project.1 in
  let origin_destination_matrix_layer_project := layers_project.2 in
  let* mapped_unique_id_column :=
    lookup_column (attribute_mapping geometry_layer_project)
                  (unique_id_column params) in
  let* mapped_origin_column :=
    lookup_column (attribute_mapping origin_destination_matrix_layer_project)
                  (origin_column params) in
  let* mapped_destination_column :=
    lookup_column (attribute_mapping origin_destination_matrix_layer_project)
                  (destination_column params) in
  let* _ := check_id_columns mapped_unique_id_column mapped_origin_column
              mapped_destination_column in
  let* mapped_weight_column :=
    lookup_column (attribute_mapping origin_destination_matrix_layer_project)
                  (weight_column params) in
  let* _ := check_weight_column mapped_weight_column in
  let layer_point := result_layer_point params mapped_weight_column in
  let* attribute_mapping_relation :=
    match ODMapping.attribute_mapping_relation mapped_unique_id_column
            mapped_weight_column with
    | Some m => ret m
    | None => raise (LookupError "attribute_mapping_relation")
    end in
  let layer_relation := result_layer_relation params attribute_mapping_relation in
  let* temp_geometry_layer := create_temp_table_layer geometry_layer_project in
  let* _ := execute (CreateIndex temp_geometry_layer [mapped_unique_id_column])
              (λ d, d) in
  let* _ := execute Commit (λ d, d) in
  let* temp_origin_destination_matrix_layer :=
    create_temp_table_layer origin_destination_matrix_layer_project in
  let* _ := execute (CreateIndex temp_origin_destination_matrix_layer
                       [mapped_origin_column; mapped_destination_column])
              (λ d, d) in
  let* _ := execute Commit (λ d, d) in
  let* d := get in
  let* _ := execute InsertRelations
      (insert_relations
         (sql_query_relations mapped_unique_id_column mapped_origin_column
            mapped_destination_column mapped_weight_column
            (table d temp_geometry_layer)
            (table d temp_origin_destination_matrix_layer))) in
  let* _ := execute InsertPoints
      (insert_points
         (sql_query_points mapped_unique_id_column mapped_destination_column
            mapped_weight_column
            (table d temp_geometry_layer)
            (table d temp_origin_destination_matrix_layer))) in
  let* _ := create_feature_layer_tool layer_relation in
  let* _ := create_feature_layer_tool layer_point in
  ret ("finished", "Origin destination pairs where successfully created.").

End od.
End OD.

(** ** Concrete origin-destination requests used to exercise the model *)

Module ODFixtures.
Import Exec OD.

(** Modelled from the spec: [src.utils.search_value] ([src.utils] is not among
    the sources).  The attribute mapping resolver translates a user-facing
    column name into the generic slot that stores it. *)
Definition search_value (m : gmap string string) (column : string)
    : option string :=
  fst <$> head (filter (λ kv, kv.2 = column) (map_to_list m)).

Definition zones : layer_project :=
  {| layer_id := "zones"; table_name := "user_data.polygon_u";
     attribute_mapping := {[ "integer_attr1" := "zone_id" ]} |}.

(** A matrix whose weight column is stored in a text slot. *)
Definition flows_text_weight : layer_project :=
  {| layer_id := "flows"; table_name := "user_data.no_geometry_u";
     attribute_mapping :=
       {[ "integer_attr1" := "from_zone"; "integer_attr2" := "to_zone";
          "text_attr1" := "trips" ]} |}.

Definition request : IOriginDestination :=
  {| tool_type := "origin_destination";
     geometry_layer_project_id := 1;
     origin_destination_matrix_layer_project_id := 2;
     unique_id_column := "zone_id";
     origin_column := "from_zone";
     destination_column := "to_zone";
     weight_column := "trips" |}.

Definition empty_db : db unit :=
  {| user_data := ∅; temporal := ∅; result_table_relation := [];
     result_table_point := []; feature_layers := [] |}.

(** The tool run against the text-weight matrix; no statement fails. *)
Definition run_text_weight : (exception + string * string) * db unit :=
  origin_destination "integer" "float" "bigint" search_value
    (λ _, inr (zones, flows_text_weight)) layer_id (λ g, g) (λ g _, g)
    (λ n, n) "relation-layer" "point-layer" (λ _, false) request empty_db.

(** A matrix with a numeric weight column. *)
Definition flows : layer_project :=
  {| layer_id := "flows"; table_name := "user_data.no_geometry_u";
     attribute_mapping :=
       {[ "integer_attr1" := "from_zone"; "integer_attr2" := "to_zone";
          "integer_attr3" := "trips" ]} |}.

Definition zone (n : Z) : feature unit :=
  {| geom := tt; attrs := {[ "integer_attr1" := n ]} |}.

Definition flow (from to trips : Z) : feature unit :=
  {| geom := tt;
     attrs := {[ "integer_attr1" := from; "integer_attr2" := to;
                 "integer_attr3" := trips ]} |}.

(** Two zones; the third flow ends in a zone that is not in the geometry
    layer. *)
Definition zone_rows : list (feature unit) := [zone 1; zone 2].
Definition flow_rows : list (feature unit) := [flow 1 2 5; flow 1 2 7; flow 1 3 4].

Definition stored_db : db unit :=
  {| user_data := {[ "zones" := zone_rows; "flows" := flow_rows ]};
     temporal := ∅; result_table_relation := [];
     result_table_point := []; feature_layers := [] |}.

Definition run_flows : (exception + string * string) * db unit :=
  origin_destination "integer" "float" "bigint" search_value
    (λ _, inr (zones, flows)) layer_id (λ g, g) (λ g _, g)
    (λ n, n) "relation-layer" "point-layer" (λ _, false) request stored_db.

End ODFixtures.

(** ** UUIDs and the names of the job-scoped temporary tables
    ([CRUDAggregateBase.__init__], [CRUDAggregatePolygon.__init__]) *)

Module UUID.

(** A [uuid.UUID] is determined by its 128-bit integer [int]. *)
Record t := { int : N }.

(** The constructor of [uuid.UUID] only admits [0 <= int < 1 << 128]. *)
Definition valid (u : t) : Prop := (int u < 2 ^ 128)%N.

Definition hex_char (d : N) : ascii :=
  match d with
  | 0 => "0" | 1 => "1" | 2 => "2" | 3 => "3" | 4 => "4" | 5 => "5"
  | 6 => "6" | 7 => "7" | 8 => "8" | 9 => "9" | 10 => "a" | 11 => "b"
  | 12 => "c" | 13 => "d" | 14 => "e" | _ => "f"
  end%N%char.

Definition is_hex (a : ascii) : bool :=
  bool_decide (a ∈ ["0"; "1"; "2"; "3"; "4"; "5"; "6"; "7"; "8"; "9";
                    "a"; "b"; "c"; "d"; "e"; "f"]%char).

(** ['%0nx' % x], most significant digit first. *)
Fixpoint hex_digits (n : nat) (x : N) : string :=
  match n with
  | O => EmptyString
  | S n' => String (hex_char ((x / 16 ^ N.of_nat n') mod 16)%N) (hex_digits n' x)
  end.

(** [UUID.__str__]: the 32 hex digits in groups of 8-4-4-4-12. *)
Definition str (u : t) : string :=
  let hex := hex_digits 32 (int u) in
  String.substring 0 8 hex +:+ "-" +:+ String.substring 8 4 hex +:+ "-" +:+
  String.substring 12 4 hex +:+ "-" +:+ String.substring 16 4 hex +:+ "-" +:+
  String.substring 20 12 hex.

End UUID.

Module TempTables.

(** [s.replace(c, '')] for a single character [c]. *)
Fixpoint remove_char (c : ascii) (s : string) : string :=
  match s with
  | EmptyString => EmptyString
  | String a s' =>
      if Ascii.eqb a c then remove_char c s' else String a (remove_char c s')
  end.

Definition table_name_total_stats (job_id : UUID.t) : string :=
  "temporal.total_stats_" +:+ remove_char "-" (UUID.str job_id).

Definition table_name_grouped_stats (job_id : UUID.t) : string :=
  "temporal.grouped_stats_" +:+ remove_char "-" (UUID.str job_id).

Definition table_name_pre_grouped (job_id : UUID.t) : string :=
  "temporal.h3_pregrouped_" +:+ remove_char "-" (UUID.str job_id).

Definition temp_table_names (job_id : UUID.t) : list string :=
  [table_name_total_stats job_id; table_name_grouped_stats job_id;
   table_name_pre_grouped job_id].

(** Letters and digits. *)
Definition is_alnum (a : ascii) : bool :=
  let n := nat_of_ascii a in
  ((48 <=? n) && (n <=? 57) || (65 <=? n) && (n <=? 90)
   || (97 <=? n) && (n <=? 122))%nat.

(** The string with its non-alphanumeric characters stripped. *)
Fixpoint strip_non_alnum (s : string) : string :=
  match s with
  | EmptyString => EmptyString
  | String a s' =>
      if is_alnum a then String a (strip_non_alnum s') else strip_non_alnum s'
  end.

(** Every character of the string satisfies the test. *)
Fixpoint all_chars (P : ascii → bool) (s : string) : bool :=
  match s with
  | EmptyString => true
  | String a s' => P a && all_chars P s'
  end.

End TempTables.

(** ** The feature-count guard ([CRUDLayer.get_feature_cnt],
    [CRUDLayer.check_exceed_feature_cnt]) *)

Module FeatureCount.
Import Exec.

Record layer_project := {
  layer_id : string;
  table_name : string;
  where_query : option string;
}.

(** Truthiness of a [str | None] value. *)
Definition str_truthy (o : option string) : bool :=
  match o with
  | Some (String _ _) => true
  | _ => false
  end.

Definition max_feature_detail (max_feature_cnt : Z) : string :=
  "Operation not supported. The layer contains more than "
  +:+ pretty max_feature_cnt
  +:+ " features. Please apply a filter to reduce the number of features.".

Section guard.

(** [src.utils.build_where_clause]: the WHERE clause assembled from a list of
    query fragments ([None] or the empty string when nothing filters). *)
Variable build_where_clause : list (option string) → option string.

(** [SELECT COUNT( * ) FROM table WHERE layer_id = ...] *)
Variable count_layer : string → string → Z.
(** [SELECT COUNT( * ) FROM table where_clause] *)
Variable count_where : string → option string → Z.

Definition get_feature_cnt (layer_project : layer_project)
    (where_query : option string) : gmap string Z :=
  let feature_cnt : gmap string Z := ∅ in
  let feature_cnt :=
    <["total_count" :=
        count_layer (table_name layer_project) (layer_id layer_project)]>
      feature_cnt in
  let where_query :=
    if negb (str_truthy where_query)
    then build_where_clause [FeatureCount.where_query layer_project]
    else build_where_clause [where_query] in
  if str_truthy where_query
  then <["filtered_count" :=
           count_where (table_name layer_project) where_query]> feature_cnt
  else feature_cnt.

Definition check_exceed_feature_cnt (max_feature_cnt : Z)
    (layer : layer_project) (where_query : option string)
    : exception + gmap string Z :=
  let feature_cnt := get_feature_cnt layer where_query in
  let cnt_to_check :=
    match feature_cnt !! "filtered_count" with
    | Some filtered_count => Some filtered_count
    | None => feature_cnt !! "total_count"
    end in
  match cnt_to_check with
  | Some cnt =>
      if decide (cnt > max_feature_cnt)
      then inl (HTTPException 422 (max_feature_detail max_feature_cnt))
      else inr feature_cnt
  | None => inl (LookupError "total_count")
  end.

(** The WHERE clause in effect: the explicit filter if one is passed, the
    layer's own filter otherwise. *)
Definition effective_where (layer : layer_project) (where_query : option string)
    : option string :=
  if str_truthy where_query then build_where_clause [where_query]
  else build_where_clause [FeatureCount.where_query layer].

(** The filtered count when a filter is in effect, the total count else. *)
Definition relevant_count (layer : layer_project) (where_query : option string)
    : Z :=
  if str_truthy (effective_where layer where_query)
  then count_where (table_name layer) (effective_where layer where_query)
  else count_layer (table_name layer) (layer_id layer).

End guard.
End FeatureCount.

Module FeatureCountFixtures.
Import FeatureCount.

(** A WHERE clause builder for the examples: the single fragment, when it is
    a non-empty string, prefixed by the keyword. *)
Definition build_where_clause (fragments : list (option string)) : option string :=
  match fragments with
  | [Some (String a s)] => Some ("WHERE " +:+ String a s)
  | _ => None
  end.

Definition stations : layer_project :=
  {| layer_id := "stations"; table_name := "user_data.point_u";
     where_query := None |}.

(** A layer of 1500 features, 1000 of which pass any filter. *)
Definition count_layer (table layer : string) : Z := 1500.
Definition count_where (table : string) (clause : option string) : Z := 1000.

End FeatureCountFixtures.

(** ** Request validation of the isochrone starting points
    ([IsochroneStartingPointsBase], [IsochroneStartingPointsActiveMobility])

    Coordinates are finite floats; they are modelled as rationals. *)

Module StartingPoints.
Import Exec.

Record values := {
  latitude : option (list Q);
  longitude : option (list Q);
  layer_project_id : option UUID.t;
}.

(** [for v in l: if v < lo or v > hi: raise ValueError(msg)] *)
Fixpoint check_bounds (lo hi : Q) (msg : string) (l : list Q) : exception + unit :=
  match l with
  | [] => inr tt
  | v :: l' =>
      if Qlt_le_dec v lo then inl (ValueError msg)
      else if Qlt_le_dec hi v then inl (ValueError msg)
      else check_bounds lo hi msg l'
  end.

(** [IsochroneStartingPointsBase.check_either_coords_or_layer_project_id] *)
Definition check_either_coords_or_layer_project_id (v : values)
    : exception + values :=
  let lat := latitude v in
  let long := longitude v in
  let coords :=
    if Py.truthy lat && Py.truthy long then
      if Py.given (layer_project_id v) then
        inl (ValueError
          "Either provide latitude and longitude or layer_project_id, not both.")
      else if negb (length (default [] lat) =? length (default [] long))%nat then
        inl (ValueError "Latitude and longitude must have the same length.")
      else
        match check_bounds (-90) 90 "Latitude must be between -90 and 90."
                (default [] lat) with
        | inl e => inl e
        | inr _ =>
            check_bounds (-180) 180 "Longitude must be between -180 and 180."
              (default [] long)
        end
    else inr tt in
  match coords with
  | inl e => inl e
  | inr _ =>
      if negb (Py.truthy lat && Py.truthy long)
         && negb (Py.given (layer_project_id v))
      then inl (ValueError
        "Must provide either latitude and longitude or layer_project_id.")
      else inr v
  end.

(** [IsochroneStartingPointsActiveMobility.check_starting_points] *)
Definition check_starting_points (v : values) : exception + values :=
  let lat := latitude v in
  let long := longitude v in
  if Py.truthy lat && Py.truthy long then
    if (1000 <? length (default [] lat))%nat then
      inl (ValueError "The maximum number of starting points is 1000.")
    else if (1000 <? length (default [] long))%nat then
      inl (ValueError "The maximum number of starting points is 1000.")
    else inr v
  else inr v.

(** The pre-validators of the active-mobility model in the order in which
    they are run: the inherited one first, the model's own one after it. *)
Definition validate_active_mobility (v : values) : exception + values :=
  match check_either_coords_or_layer_project_id v with
  | inl e => inl e
  | inr v' => check_starting_points v'
  end.

(** The coordinate form: both lists, non-empty, of equal length and within
    the WGS84 bounds, and no layer id. *)
Definition coordinate_form (v : values) : Prop :=
  ∃ lat long,
    latitude v = Some lat ∧ longitude v = Some long
    ∧ lat ≠ [] ∧ long ≠ [] ∧ length lat = length long
    ∧ Forall (λ x, -90 <= x ∧ x <= 90)%Q lat
    ∧ Forall (λ x, -180 <= x ∧ x <= 180)%Q long
    ∧ layer_project_id v = None.


(** The layer form as the validator takes it: a layer id, and the two
    coordinate lists not both supplied non-empty. *)
Definition layer_form (v : values) : Prop :=
  is_Some (layer_project_id v)
  ∧ (Py.truthy (latitude v) = false ∨ Py.truthy (longitude v) = false).


(** 1001 starting points at the origin. *)
Definition too_many_points : values :=
  {| latitude := Some (replicate 1001 0%Q);
     longitude := Some (replicate 1001 0%Q);
     layer_project_id := None |}.


End StartingPoints.

(** ** Aggregation tools ([CRUDAggregateBase], [CRUDAggregatePoint],
    [CRUDAggregatePolygon]) *)

Module Aggregation.
Import Exec.

Inductive FeatureGeometryType := point | line | polygon.

Inductive ColumnStatisticsOperation := count | sum | mean | median | min | max.

Record layer_project := {
  layer_id : string;
  table_name : string;
  feature_layer_geometry_type : FeatureGeometryType;
}.

Record IAggregation := {
  source_layer_project_id : Z;
  aggregation_layer_project_id : option Z;
  h3_resolution : Z;
  operation : ColumnStatisticsOperation;
  field : string;
  source_group_by_field : option (list string);
  weigthed_by_intersecting_area : bool;
}.

(** The expression selected [AS stats] (or [AS val]) by a generated query.
    The text produced by [get_statistics_sql] is an opaque aggregate. *)
Inductive sql_expr :=
| Statistic (query : string)
| Column (text : string)
| FirstOf (e : sql_expr)                 (* (ARRAY_AGG(e))[1] *)
| AreaShare                              (* SUM(ST_AREA(ST_INTERSECTION(a, s)) / ST_AREA(s)) *)
| CellShare                              (* SUM(CASE WHEN ST_WITHIN ... END) *)
| Times (a b : sql_expr)
| Round (e : sql_expr) (digits : nat).   (* round((e)::numeric, digits) *)

(** What the combined [INSERT] reads from. *)
Inductive insert_source :=
| ZonesLeftJoinTotal          (* zone layer LEFT JOIN total_stats *)
| ZonesLeftJoinTotalGrouped   (* zone layer LEFT JOIN (grouped JOIN total) *)
| CellsTotal                  (* total_stats *)
| CellsTotalGrouped.          (* total_stats JOIN grouped_stats *)

Inductive statement :=
| CreateDistributedPointTable (layer : string)
| CreateDistributedPolygonTable (layer : string)
| SelectAvgEdgeLength (h3_resolution : Z)
| CreateTableTotalStats (table : string) (stats : sql_expr)
| CreateTableGroupedStats (table : string) (stats : sql_expr)
| CreateTablePreGrouped (table : string) (val : sql_expr)
| CreateIndex (table : string) (column : string)
| InsertResult (result_table : string) (layer_in : string) (source : insert_source)
| CreateFeatureLayerTool (layer_in : string)
| DeleteTempTables.

(** The session state: the statements executed so far, oldest first. *)
Definition db := list statement.

Record aggregation := {
  aggregation_layer_project : option layer_project;
  layer_in : string;
  temp_source : string;
  temp_aggregation : option string;
  statistics_column_query : string;
  mapped_statistics_field : string;
}.




Section tools.

(** Helpers of [src.core.tool] and [src.utils], which are not among the
    sources: they are taken as they come. *)
Variable get_layers_project :
  IAggregation → exception + (layer_project * option layer_project).
Variable check_column_statistics :
  layer_project → string → exception + (string * string).
Variable get_statistics_sql : string → ColumnStatisticsOperation → string.
Variable convert_geom_measurement_field : string → string.
Variable distributed_table_name : layer_project → string.
Variable new_layer_id : string.
Variable result_table : string.
Variable job_id : UUID.t.

(** The statements that the database rejects. *)
Variable fails : statement → bool.

Definition execute (stmt : statement) : M db unit :=
  λ d, if fails stmt then (inl (DatabaseError "execute"), d)
       else (inr tt, d ++ [stmt]).

Definition create_distributed_point_table (layer : layer_project) : M db string :=
  let* _ := execute (CreateDistributedPointTable (layer_id layer)) in
  ret (distributed_table_name layer).

Definition create_distributed_polygon_table (layer : layer_project) : M db string :=
  let* _ := execute (CreateDistributedPolygonTable (layer_id layer)) in
  ret (distributed_table_name layer).

(** [CRUDAggregateBase.prepare_aggregation], lines 31-148.  The column lists
    of the later statements (select, insert and group-by columns) are plain
    text that the statements below do not depend on; they are left out. *)
Definition prepare_aggregation (params : IAggregation) : M db aggregation :=
  let* layers_project := lift (get_layers_project params) in
  let source_layer_project := layers_project.1 in
  let aggregation_layer_project := layers_project.2 in
  let* result_check_statistics_field :=
    lift (check_column_statistics source_layer_project (field params)) in
  let mapped_statistics_field := result_check_statistics_field.1 in
  let* temp_source :=
    match feature_layer_geometry_type source_layer_project with
    | point =>
        let* t := create_distributed_point_table source_layer_project in
        ret (Some t)
    | polygon =>
        let* t := create_distributed_polygon_table source_layer_project in
        ret (Some t)
    | line => ret None
    end in
  let* temp_aggregation :=
    match aggregation_layer_project with
    | Some layer =>
        let* t := create_distributed_polygon_table layer in ret (Some t)
    | None => ret None
    end in
  match temp_source with
  | None => raise (UnboundLocalError "temp_source")
  | Some temp_source =>
      ret {| aggregation_layer_project := aggregation_layer_project;
             layer_in := new_layer_id;
             temp_source := temp_source;
             temp_aggregation := temp_aggregation;
             statistics_column_query :=
               get_statistics_sql (temp_source +:+ "." +:+ mapped_statistics_field)
                 (operation params);
             mapped_statistics_field := mapped_statistics_field |}
  end.

Definition table_name_total_stats := TempTables.table_name_total_stats job_id.
Definition table_name_grouped_stats := TempTables.table_name_grouped_stats job_id.
Definition table_name_pre_grouped := TempTables.table_name_pre_grouped job_id.

Definition finished (msg : string) : string * string := ("finished", msg).

(** [CRUDAggregatePoint.aggregate_point], lines 161-295. *)
Definition aggregate_point (params : IAggregation) : M db (string * string) :=
  let* aggregation := prepare_aggregation params in
  let stats := Statistic (statistics_column_query aggregation) in
  let* sql_query :=
    match aggregation_layer_project aggregation with
    | Some _ =>
        let* _ := execute (CreateTableTotalStats table_name_total_stats stats) in
        let* _ := execute (CreateIndex table_name_total_stats "id") in
        if Py.truthy (source_group_by_field params) then
          let* _ := execute (CreateTableGroupedStats table_name_grouped_stats stats) in
          let* _ := execute (CreateIndex table_name_grouped_stats "id") in
          ret (InsertResult result_table (layer_in aggregation)
                 ZonesLeftJoinTotalGrouped)
        else
          ret (InsertResult result_table (layer_in aggregation) ZonesLeftJoinTotal)
    | None =>
        let* _ := execute (CreateTableTotalStats table_name_total_stats stats) in
        let* _ := execute (CreateIndex table_name_total_stats "h3_index") in
        if Py.truthy (source_group_by_field params) then
          let* _ := execute (CreateTableGroupedStats table_name_grouped_stats stats) in
          let* _ := execute (CreateIndex table_name_grouped_stats "h3_index") in
          ret (InsertResult result_table (layer_in aggregation) CellsTotalGrouped)
        else
          ret (InsertResult result_table (layer_in aggregation) CellsTotal)
    end in
  let* _ := execute sql_query in
  let* _ := execute (CreateFeatureLayerTool (layer_in aggregation)) in
  let* _ := execute DeleteTempTables in
  ret (finished "Points where successfully aggregated.").

(** Lines 410-433 of [aggregate_polygon]: [statistics_val] and
    [statistics_sql], which (like [first_statistic_column_query]) are bound
    on the area-weighted path only. *)
Definition weighted_statistics (params : IAggregation)
    (mapped_statistics_field : string) : option (string * string) :=
  if weigthed_by_intersecting_area params then
    match operation params with
    | count => Some ("1", "SUM(val)")
    | _ =>
        Some (if decide (mapped_statistics_field = "$intersected_area")
              then convert_geom_measurement_field
                     ("j." +:+ mapped_statistics_field)
              else "p." +:+ mapped_statistics_field,
              get_statistics_sql "val" (operation params))
    end
  else None.

(** [CRUDAggregatePolygon.aggregate_polygon], lines 314-534. *)
Definition aggregate_polygon (params : IAggregation) : M db (string * string) :=
  let* aggregation := prepare_aggregation params in
  let mapped_statistics_field := mapped_statistics_field aggregation in
  let* sql_query_combine :=
    match aggregation_layer_project aggregation with
    | Some _ =>
        let statistics_column_query :=
          if weigthed_by_intersecting_area params
          then Times (Statistic (statistics_column_query aggregation)) AreaShare
          else Statistic (statistics_column_query aggregation) in
        let* _ := execute (CreateTableTotalStats table_name_total_stats
                             (Round statistics_column_query 6)) in
        let* _ := execute (CreateIndex table_name_total_stats "id") in
        if Py.truthy (source_group_by_field params) then
          let* _ := execute (CreateTableGroupedStats table_name_grouped_stats
                               (Round statistics_column_query 6)) in
          let* _ := execute (CreateIndex table_name_grouped_stats "id") in
          ret (InsertResult result_table (layer_in aggregation)
                 ZonesLeftJoinTotalGrouped)
        else
          ret (InsertResult result_table (layer_in aggregation) ZonesLeftJoinTotal)
    | None =>
        let* _ := execute (SelectAvgEdgeLength (h3_resolution params)) in
        match weighted_statistics params mapped_statistics_field with
        | None => raise (UnboundLocalError "statistics_val")
        | Some (statistics_val, statistics_sql) =>
            let* _ := execute (CreateTablePreGrouped table_name_pre_grouped
                         (Times (FirstOf (Column statistics_val)) CellShare)) in
            let* _ := execute (CreateIndex table_name_pre_grouped "h3_target") in
            let* _ := execute (CreateTableTotalStats table_name_total_stats
                                 (Round (Statistic statistics_sql) 6)) in
            let* _ := execute (CreateIndex table_name_total_stats "h3_target") in
            if Py.truthy (source_group_by_field params) then
              let* _ := execute (CreateTableGroupedStats table_name_grouped_stats
                                   (Round (Statistic statistics_sql) 6)) in
              let* _ := execute (CreateIndex table_name_grouped_stats "h3_target") in
              ret (InsertResult result_table (layer_in aggregation)
                     CellsTotalGrouped)
            else
              ret (InsertResult result_table (layer_in aggregation) CellsTotal)
        end
    end in
  let* _ := execute sql_query_combine in
  let* _ := execute (CreateFeatureLayerTool (layer_in aggregation)) in
  let* _ := execute DeleteTempTables in
  ret (finished "Polygons where successfully aggregated.").

(** The [stats] expressions of the total-stats tables created so far. *)
Definition total_stats_exprs (d : db) : list sql_expr :=
  omap (λ stmt, match stmt with
                | CreateTableTotalStats _ e => Some e
                | _ => None
                end) d.

(** The three statements that close a successful run. *)
Definition is_final_step (stmt : statement) : bool :=
  match stmt with
  | InsertResult _ _ _ | CreateFeatureLayerTool _ | DeleteTempTables => true
  | _ => false
  end.

(** The log ends with the insert of the result rows, the registration of the
    result layer and the deletion of the temporary tables, in this order, and
    none of the three happened earlier in the run. *)
Definition finished_in_order (d d' : db) : Prop :=
  ∃ before source,
    d' = d ++ before
           ++ [InsertResult result_table new_layer_id source;
               CreateFeatureLayerTool new_layer_id; DeleteTempTables]
    ∧ Forall (λ stmt, is_final_step stmt = false) before.

(** The temporary table that a statement creates or indexes. *)
Definition statement_table (stmt : statement) : option string :=
  match stmt with
  | CreateTableTotalStats t _ | CreateTableGroupedStats t _
  | CreateTablePreGrouped t _ | CreateIndex t _ => Some t
  | _ => None
  end.

End tools.
End Aggregation.

(** ** Concrete aggregation runs used to exercise the model *)

Module AggregationFixtures.
Import Exec Aggregation.


Definition parcels : layer_project :=
  {| layer_id := "parcels"; table_name := "user_data.polygon_u";
     feature_layer_geometry_type := polygon |}.

Definition districts : layer_project :=
  {| layer_id := "districts"; table_name := "user_data.polygon_u";
     feature_layer_geometry_type := polygon |}.

(** Mean of a field per district, without grouping. *)
Definition mean_per_district : IAggregation :=
  {| source_layer_project_id := 1; aggregation_layer_project_id := Some 2;
     h3_resolution := 8; operation := mean; field := "pupils";
     source_group_by_field := None; weigthed_by_intersecting_area := true |}.


Definition statistics_sql (column : string) (op : ColumnStatisticsOperation)
    : string :=
  (match op with
   | count => "COUNT(" | sum => "SUM(" | mean => "AVG("
   | median => "PERCENTILE_CONT(0.5) WITHIN GROUP (ORDER BY "
   | min => "MIN(" | max => "MAX("
   end) +:+ column +:+ ")".

Definition job : UUID.t := {| UUID.int := 0x12345678123456781234567812345678 |}.


(** The polygon tool on the parcels, no statement failing. *)
Definition run_polygon_mean : (exception + string * string) * db :=
  aggregate_polygon (λ _, inr (parcels, Some districts))
    (λ _ _, inr ("integer_attr1", "integer")) statistics_sql (λ f, f)
    (λ layer, "temporal." +:+ layer_id layer) "result-layer"
    "user_data.polygon_u" job (λ _, false) mean_per_district [].


End AggregationFixtures.

(** ** Isochrone staging ([CRUDIsochroneBase]) *)

Module Isochrone.
Import Exec.

Record IIsochrone := {
  starting_points : StartingPoints.values;
  geofence_table : string;
  tool_type : string;
}.

Inductive statement :=
| GetLayerProject (id : UUID.t)
| SelectNotIntersecting (geofence_table : string) (lats lons : list Q)
| InsertStartingPoints (lats lons : list Q).

(** The starting-points table of the user and the statements executed so
    far, oldest first. *)
Record db {P : Type} := {
  table_starting_points : list (string * P);
  executed : list statement;
}.
Arguments db : clear implicits.

Definition out_of_geofence_message (cnt_not_intersecting : nat) : string :=
  "There are " +:+ pretty cnt_not_intersecting
  +:+ " starting points that are not within the geofence. Please check your starting points.".

Section staging.
Context {P Geo : Type}.

(** [ST_SETSRID(ST_MAKEPOINT(lat, lon), 4326)], arguments in the order of the
    query, and [ST_INTERSECTS]. *)
Variable ST_MakePoint : Q → Q → P.
Variable ST_Intersects : P → Geo → bool.

(** The rows of each geofence table. *)
Variable geofence : string → list Geo.

(** [crud_layer_project.get] and the id of a freshly created layer object. *)
Variable get_layer : UUID.t → exception + string.
Variable new_layer_id : string.

(** The statements that the database rejects. *)
Variable fails : statement → bool.

Definition execute (stmt : statement) (effect : db P → db P) : M (db P) unit :=
  λ d, if fails stmt then (inl (DatabaseError "execute"), d)
       else (inr tt,
             let d' := effect d in
             {| table_starting_points := table_starting_points d';
                executed := executed d' ++ [stmt] |}).

(** [FROM UNNEST(ARRAY lats) AS lat, UNNEST(ARRAY lons) AS lon]: the two
    set-returning functions are cross-joined, every latitude is paired with
    every longitude. *)
Definition unnest_pairs (lats lons : list Q) : list P :=
  lat ← lats; lon ← lons; [ST_MakePoint lat lon].

(** [WHERE NOT EXISTS (SELECT 1 FROM geofence g WHERE ST_INTERSECTS(t.geom, g.geom))] *)
Definition outside (table : string) (t : P) : bool :=
  forallb (λ g, negb (ST_Intersects t g)) (geofence table).

(** The [SELECT COUNT( * )] of lines 44-58. *)
Definition cnt_not_intersecting (table : string) (lats lons : list Q) : nat :=
  length (filter (λ t, outside table t = true) (unnest_pairs lats lons)).

(** The [INSERT] of lines 73-78. *)
Definition insert_rows (lats lons : list Q) (d : db P) : db P :=
  {| table_starting_points :=
       table_starting_points d
       ++ ((λ geom, (new_layer_id, geom)) <$> unnest_pairs lats lons);
     executed := executed d |}.

(** One turn of the loop of lines 40-66. *)
Definition check_batch (table : string) (latitude longitude : list Q) (i : nat)
    : M (db P) unit :=
  let lats := Py.slice latitude i 500 in
  let lons := Py.slice longitude i 500 in
  let* _ := execute (SelectNotIntersecting table lats lons) (λ d, d) in
  let cnt := cnt_not_intersecting table lats lons in
  if decide (0 < cnt)%nat
  then raise (OutOfGeofenceError (out_of_geofence_message cnt))
  else ret tt.

(** One turn of the loop of lines 69-80. *)
Definition insert_batch (latitude longitude : list Q) (i : nat) : M (db P) unit :=
  let lats := Py.slice latitude i 500 in
  let lons := Py.slice longitude i 500 in
  execute (InsertStartingPoints lats lons) (insert_rows lats lons).

(** [CRUDIsochroneBase.create_or_return_layer_starting_points], lines 21-82. *)
Definition create_or_return_layer_starting_points (params : IIsochrone)
    : M (db P) string :=
  match StartingPoints.layer_project_id (starting_points params) with
  | Some layer_project_id =>
      let* _ := execute (GetLayerProject layer_project_id) (λ d, d) in
      lift (get_layer layer_project_id)
  | None =>
      match StartingPoints.latitude (starting_points params) with
      | None => raise (TypeError "object of type 'NoneType' has no len()")
      | Some latitude =>
          match StartingPoints.longitude (starting_points params) with
          | Some longitude =>
              let* _ := for_each (Py.range_step (length latitude) 500)
                          (check_batch (geofence_table params) latitude longitude) in
              let* _ := for_each (Py.range_step (length latitude) 500)
                          (insert_batch latitude longitude) in
              ret new_layer_id
          | None =>
              (* the slice of [longitude] is only reached in a loop turn *)
              match latitude with
              | [] => ret new_layer_id
              | _ :: _ => raise (TypeError "'NoneType' object is not subscriptable")
              end
          end
      end
  end.

(** The starting points of a batch that the geofence does not cover: the
    points proper, latitude [k] with longitude [k]. *)
Definition offending_points (table : string) (lats lons : list Q) : list P :=
  filter (λ t, outside table t = true) (zip_with ST_MakePoint lats lons).

Definition is_insert (stmt : statement) : bool :=
  match stmt with InsertStartingPoints _ _ => true | _ => false end.

End staging.
End Isochrone.

(** ** A concrete staging request *)

Module IsochroneFixtures.
Import Exec Isochrone.

(** An axis-parallel rectangle of the geofence. *)
Record box := { x_min : Q; x_max : Q; y_min : Q; y_max : Q }.

Definition covers (p : Q * Q) (b : box) : bool :=
  Qle_bool (x_min b) p.1 && Qle_bool p.1 (x_max b)
  && Qle_bool (y_min b) p.2 && Qle_bool p.2 (y_max b).

(** The service area: the square between 5 and 15 in both coordinates. *)
Definition service_area (table : string) : list box :=
  [{| x_min := 5; x_max := 15; y_min := 5; y_max := 15 |}].

(** Two starting points; the first lies in the service area, the second does
    not. *)
Definition two_starts : IIsochrone :=
  {| starting_points :=
       {| StartingPoints.latitude := Some [10; 20]%Q;
          StartingPoints.longitude := Some [10; 20]%Q;
          StartingPoints.layer_project_id := None |};
     geofence_table := "basic.geofence_active_mobility";
     tool_type := "isochrone_active_mobility" |}.

Definition empty_db : db (Q * Q) :=
  {| table_starting_points := []; executed := [] |}.

Definition stage_two_starts : (exception + string) * db (Q * Q) :=
  create_or_return_layer_starting_points pair covers service_area
    (λ _, inr "layer") "starting-points" (λ _, false) two_starts empty_db.

(** Two starting points inside the service area, whose cross pairs lie
    inside it as well. *)
Definition covered_starts : IIsochrone :=
  {| starting_points :=
       {| StartingPoints.latitude := Some [10; 12]%Q;
          StartingPoints.longitude := Some [10; 12]%Q;
          StartingPoints.layer_project_id := None |};
     geofence_table := "basic.geofence_active_mobility";
     tool_type := "isochrone_active_mobility" |}.

Definition stage_covered_starts : (exception + string) * db (Q * Q) :=
  create_or_return_layer_starting_points pair covers service_area
    (λ _, inr "layer") "starting-points" (λ _, false) covered_starts empty_db.

End IsochroneFixtures.

(** ** Python dictionaries *)

Module PyDict.

(** A [dict]: its items in insertion order. *)
Definition dict (K V : Type) : Type := list (K * V).

Section operations.
Context {K V : Type} `{EqDecision K}.

(** [d.get(k)] *)
Fixpoint get (d : dict K V) (k : K) : option V :=
  match d with
  | [] => None
  | (k', v) :: d' => if decide (k' = k) then Some v else get d' k
  end.

(** [d[k] = v]: a key that is present keeps its place, a new key goes last. *)
Fixpoint set (k : K) (v : V) (d : dict K V) : dict K V :=
  match d with
  | [] => [(k, v)]
  | (k', v') :: d' =>
      if decide (k' = k) then (k, v) :: d' else (k', v') :: set k v d'
  end.

End operations.
End PyDict.

(** ** File import: the attribute mapping of a new layer
    ([CRUDLayer.import_file], lines 240-249 and 281) and the column lookup of
    the statistics endpoints ([CRUDLayer.get_internal],
    [CRUDLayer.check_if_column_suitable_for_stats]) *)

Module LayerImport.
Import Exec PyDict Slot.

(** The inner loop: the fields of one type are numbered from 1; [id] is
    skipped and takes no number. *)
Definition number_fields (field_type : string) (field_names : list string)
    (attribute_mapping : dict string string) : dict string string * nat :=
  foldl (λ '(attribute_mapping, cnt) field_name,
           if decide (field_name = "id") then (attribute_mapping, cnt)
           else (set field_name (slot field_type cnt) attribute_mapping, S cnt))
        (attribute_mapping, 1%nat) field_names.

(** The mapping from field names to columns that is handed to
    [migrate_target_table]; [valid] is [file_metadata["data_types"]["valid"]]. *)
Definition attribute_mapping (valid : dict string (list string))
    : dict string string :=
  foldl (λ attribute_mapping '(field_type, field_names),
           (number_fields field_type field_names attribute_mapping).1)
        [] valid.

(** [{value: key for key, value in attribute_mapping.items()}]: the mapping
    from columns to field names that is stored with the layer. *)
Definition invert (attribute_mapping : dict string string)
    : dict string string :=
  foldl (λ inverted '(key, value), set value key inverted) [] attribute_mapping.

Inductive LayerType := feature | external_imagery | external_vector_tile | table.

Record Layer := {
  id : UUID.t;
  type : LayerType;
  table_name : string;
  layer_attribute_mapping : dict string string;
}.

Record stats_check := {
  layer : Layer;
  column_mapped : string;
  where_query : string;
}.

(** [next((key for key, value in attribute_mapping.items()
           if value == column_name), None)] *)
Definition first_key_of (attribute_mapping : dict string string)
    (column_name : string) : option string :=
  fst <$> head (filter (λ item, item.2 = column_name) attribute_mapping).

Section statistics.

(** [CRUDBase.get] *)
Variable get_layer : UUID.t → option Layer.
(** [src.utils.build_where] *)
Variable build_where : UUID.t → string → string → dict string string → string.

Definition get_internal (id : UUID.t) : exception + Layer :=
  match get_layer id with
  | None => inl (HTTPException 404 "Layer not found")
  | Some layer =>
      match type layer with
      | feature | table => inr layer
      | _ =>
          inl (HTTPException 422
                 "Layer is not a feature layer or table layer. The requested operation cannot be performed on this layer.")
      end
  end.

Definition check_if_column_suitable_for_stats (id : UUID.t)
    (column_name query : string) : exception + stats_check :=
  match get_internal id with
  | inl e => inl e
  | inr layer =>
      match first_key_of (layer_attribute_mapping layer) column_name with
      | None => inl (HTTPException 404 "Column not found")
      | Some column_mapped =>
          inr {| layer := layer; column_mapped := column_mapped;
                 where_query :=
                   build_where (LayerImport.id layer) (table_name layer) query
                     (layer_attribute_mapping layer) |}
      end
  end.

End statistics.
End LayerImport.
Module LayerImportFixtures.
Import PyDict LayerImport.

(** The valid columns of a census file, by type, in the order of the file. *)
Definition census_columns : dict string (list string) :=
  [("integer", ["id"; "population"; "year"]); ("string", ["name"])].

Definition census : Layer :=
  {| id := {| UUID.int := 7 |}; type := feature;
     table_name := "user_data.polygon_u";
     layer_attribute_mapping := invert (attribute_mapping census_columns) |}.

Definition build_where (id : UUID.t) (table_name query : string)
    (attribute_mapping : dict string string) : string :=
  "layer_id = '" +:+ UUID.str id +:+ "'".

End LayerImportFixtures.
(** ** The user-data tables of the layers
    ([internal_layer_table_name] in [src/db/models/layer.py], and the tables
    that the tools name themselves) *)

Module LayerTables.
Import Exec.

(** The attributes of a layer that its table name depends on; [type] and
    [feature_layer_geometry_type] are the values of the string enums. *)
Record layer_values := {
  type : string;
  feature_layer_geometry_type : string;
  user_id : UUID.t;
}.

Section names.

(** [settings.USER_DATA_SCHEMA] *)
Variable USER_DATA_SCHEMA : string.

Definition internal_layer_table_name (values : layer_values)
    : exception + string :=
  let named feature_layer_geometry_type :=
    inr (USER_DATA_SCHEMA +:+ "." +:+ feature_layer_geometry_type +:+ "_"
         +:+ TempTables.remove_char "-" (UUID.str (user_id values))) in
  if decide (type values = "feature")
  then named (feature_layer_geometry_type values)
  else if decide (type values = "table")
  then named "no_geometry"
  else inl (ValueError ("The passed layer type " +:+ type values
                        +:+ " is not supported.")).

(** [CRUDIsochroneBase.__init__]: the table of the staged starting points. *)
Definition table_starting_points (user_id : UUID.t) : string :=
  USER_DATA_SCHEMA +:+ ".point_"
  +:+ TempTables.remove_char "-" (UUID.str user_id).

(** [CRUDAggregatePoint.__init__], [CRUDAggregatePolygon.__init__]: the table
    that receives the aggregation result. *)
Definition result_table (user_id : UUID.t) : string :=
  USER_DATA_SCHEMA +:+ ".polygon_"
  +:+ TempTables.remove_char "-" (UUID.str user_id).

End names.
End LayerTables.

Module LayerTablesFixtures.
Import LayerTables.

(** A point layer of one user and a table without geometry of another. *)
Definition stops : layer_values :=
  {| type := "feature"; feature_layer_geometry_type := "point";
     user_id := {| UUID.int := 1 |} |}.

Definition notes : layer_values :=
  {| type := "table"; feature_layer_geometry_type := "";
     user_id := {| UUID.int := 2 |} |}.

End LayerTablesFixtures.
(** ** Map styles of the thumbnails ([src/core/print.py]) *)

Module Print.
Import Exec.

(** The number of hexadecimal digits of a number, at least one. *)
Definition hex_length (x : N) : nat := Nat.max 1 ((N.size_nat x + 3) / 4).

(** ["{:02x}".format(v)] for an integer: lower-case hexadecimal digits,
    filled with zeros up to two characters, the sign included. *)
Definition format_02x (v : Z) : string :=
  match v with
  | Zneg p => "-" +:+ UUID.hex_digits (hex_length (Npos p)) (Npos p)
  | _ => UUID.hex_digits (Nat.max 2 (hex_length (Z.to_N v))) (Z.to_N v)
  end.

Definition rgb_to_hex (rgb : list Z) : exception + string :=
  match rgb with
  | r :: g :: b :: _ =>
      inr ("#" +:+ format_02x r +:+ format_02x g +:+ format_02x b)
  | _ => inl (LookupError "tuple index out of range")
  end.

(** The values of a Mapbox style: strings, numbers and lists. *)
Inductive expression :=
| Str (s : string)
| Num (x : Q)
| Arr (items : list expression).

(** What [get_mapbox_style_color] reads of [data["properties"]] for one
    [type]: [{type}_range.colors], [{type}_field.name],
    [{type}_scale_breaks.breaks] (the empty list when missing) and the plain
    colour [{type}]. *)
Record color_properties := {
  colors : option (list string);
  field_name : option string;
  breaks : list (option Q);
  solid : option (list Z);
}.

(** [x or 0] *)
Definition or_zero (x : option Q) : Q :=
  match x with
  | Some q => if Qeq_bool q 0 then 0%Q else q
  | None => 0%Q
  end.

(** The loop over [enumerate(colors)], from [index] on. *)
Fixpoint color_steps (all_colors : list string) (breaks : list (option Q))
    (index : nat) (remaining : list string)
    : exception + list (list expression) :=
  match remaining with
  | [] => inr []
  | color :: remaining' =>
      let step :=
        if decide (index = length all_colors - 1)%nat
        then match all_colors !! index with
             | Some last => inr [Str last]
             | None => inl (LookupError "list index out of range")
             end
        else match breaks !! index with
             | Some stop => inr [Str color; Num (or_zero stop)]
             | None => inl (LookupError "list index out of range")
             end in
      match step with
      | inl e => inl e
      | inr step =>
          match color_steps all_colors breaks (S index) remaining' with
          | inl e => inl e
          | inr steps => inr (step :: steps)
          end
      end
  end.

Definition get_mapbox_style_color (properties : color_properties)
    : exception + expression :=
  let plain :=
    if Py.truthy (solid properties)
    then match rgb_to_hex (default [] (solid properties)) with
         | inl e => inl e
         | inr hex => inr (Str hex)
         end
    else inr (Str "#000000") in
  match field_name properties, colors properties with
  | Some (String a name), Some (color :: colors') =>
      let field_name := String a name in
      let colors := color :: colors' in
      if decide (length (breaks properties) ≠ length colors - 1)%nat
      then plain
      else
        match color_steps colors (breaks properties) 0 colors with
        | inl e => inl e
        | inr steps =>
            inr (Arr ([Str "step"; Arr [Str "get"; Str field_name]]
                      ++ mjoin steps))
        end
  | _, _ => plain
  end.

End Print.

Module PrintFixtures.
Import Print.

(** Three classes of a population field and a plain colour. *)
Definition population_style : color_properties :=
  {| colors := Some ["#fee5d9"; "#fcae91"; "#cb181d"];
     field_name := Some "population";
     breaks := [Some (1000 # 1); None];
     solid := Some [255; 0; 128] |}.

End PrintFixtures.
(** ** The user endpoints ([src/endpoints/v2/user.py]) *)

Module UserEndpoint.
Import Exec.

Record User := { id : UUID.t }.

(** The calls that change the database. *)
Inductive call :=
| CreateUserDataTables (user_id : UUID.t)
| CreateUser (user : User)
| CreateFolder (name : string) (user_id : UUID.t)
| RemoveUser (user_id : UUID.t)
| DeleteUserDataTables (user_id : UUID.t).

(** The session state: the calls that took effect, oldest first. *)
Definition db := list call.

(** [str(e)] *)
Definition str (e : exception) : string :=
  match e with
  | ColumnTypeError msg | OutOfGeofenceError msg | ValueError msg
  | TypeError msg | UnboundLocalError msg | LookupError msg
  | DatabaseError msg => msg
  | HTTPException _ detail => detail
  end.

(** [try: body  except Exception as e: handler(e)] *)
Definition try_except {S A} (body : M S A) (handler : exception → M S A)
    : M S A :=
  λ s, match body s with
       | (inl e, s') => handler e s'
       | (inr a, s') => (inr a, s')
       end.

Section endpoints.

(** [crud_user.get]: what the lookup of the user returns. *)
Variable get : UUID.t → exception + option User.
(** The calls that raise, with the message of the exception. *)
Variable raises : call → option string.

Definition execute (c : call) : M db unit :=
  λ d, match raises c with
       | Some msg => (inl (DatabaseError msg), d)
       | None => (inr (), d ++ [c])
       end.

Definition create_user (user_id : UUID.t) : M db User :=
  let* user := lift (get user_id) in
  if Py.given user
  then raise (HTTPException 409 "User already exists")
  else
    let* _ := execute (CreateUserDataTables user_id) in
    try_except
      (let user := {| id := user_id |} in
       let* _ := execute (CreateUser user) in
       let* _ := execute (CreateFolder "home" user_id) in
       ret user)
      (λ e,
         let* _ := execute (DeleteUserDataTables user_id) in
         raise (HTTPException 500 (str e))).

Definition get_user (user_id : UUID.t) : M db User :=
  let* user := lift (get user_id) in
  match user with
  | Some user => ret user
  | None => raise (HTTPException 404 "User not found")
  end.

Definition delete_user (user_id : UUID.t) : M db unit :=
  let* user := lift (get user_id) in
  match user with
  | Some user =>
      let* _ := execute (RemoveUser user_id) in
      let* _ := execute (DeleteUserDataTables (id user)) in
      ret ()
  | None => raise (HTTPException 404 "User not found")
  end.

End endpoints.
End UserEndpoint.

Module UserEndpointFixtures.
Import Exec UserEndpoint.

Definition alice : UUID.t := {| UUID.int := 10 |}.

(** No user is stored yet. *)
Definition no_user (user_id : UUID.t) : exception + option User := inr None.

(** The home folder cannot be created; every other call goes through. *)
Definition folder_fails (c : call) : option string :=
  match c with
  | CreateFolder _ _ => Some "folder"
  | _ => None
  end.

End UserEndpointFixtures.
(** * Properties *)

Section string_facts.

Lemma append_length (s t : string) :
  String.length (s +:+ t) = (String.length s + String.length t)%nat.
Proof. induction s as [|c s IH]; simpl; [done|]. by rewrite IH. Qed.

(** Two concatenations with suffixes of the same length agree componentwise. *)
Lemma append_inj_suffix (s1 s2 t1 t2 : string) :
  String.length t1 = String.length t2 →
  s1 +:+ t1 = s2 +:+ t2 → s1 = s2 ∧ t1 = t2.
Proof.
  revert s2. induction s1 as [|c1 s1 IH]; intros [|c2 s2] Hlen Heq.
  - done.
  - apply (f_equal String.length) in Heq.
    rewrite !append_length in Heq. simpl in Heq. lia.
  - apply (f_equal String.length) in Heq.
    rewrite !append_length in Heq. simpl in Heq. lia.
  - change (String c1 (s1 +:+ t1) = String c2 (s2 +:+ t2)) in Heq.
    injection Heq as -> Heq. destruct (IH _ Hlen Heq) as [-> ->]. done.
Qed.

End string_facts.

Section slot_facts.
Import Slot.

Lemma slot_inj_number family n1 n2 : slot family n1 = slot family n2 → n1 = n2.
Proof.
  unfold slot. intros H.
  apply (inj (String.app family)) in H.
  apply (inj (String.app "_attr")) in H.
  by apply (inj pretty) in H.
Qed.

Lemma slot_1_2 f1 f2 : slot f1 1 ≠ slot f2 2.
Proof.
  unfold slot. intros H.
  apply append_inj_suffix in H as [_ H]; [|done]. discriminate H.
Qed.

Lemma slot_1_1 f1 f2 : slot f1 1 = slot f2 1 → f1 = f2.
Proof.
  unfold slot. intros H.
  by apply append_inj_suffix in H as [H _].
Qed.

End slot_facts.

Section od_mapping_facts.
Import Slot ODMapping.

Lemma id_slots_lookup_1 uid :
  id_slots uid !! slot (Py.split_head uid) 1 = Some "origin".
Proof.
  unfold id_slots. rewrite lookup_insert_ne; [|apply not_eq_sym, slot_1_2].
  by rewrite lookup_insert_eq.
Qed.

Lemma id_slots_lookup_2 uid :
  id_slots uid !! slot (Py.split_head uid) 2 = Some "destination".
Proof. unfold id_slots. by rewrite lookup_insert_eq. Qed.

Lemma id_slots_lookup_other uid k :
  k ≠ slot (Py.split_head uid) 1 → k ≠ slot (Py.split_head uid) 2 →
  id_slots uid !! k = None.
Proof.
  intros H1 H2. unfold id_slots.
  rewrite lookup_insert_ne; [|done]. rewrite lookup_insert_ne; [|done].
  apply lookup_empty.
Qed.

Lemma id_slots_size uid : size (id_slots uid) = 2%nat.
Proof.
  unfold id_slots. rewrite map_size_insert_None.
  - by rewrite map_size_insert_None, map_size_empty by apply lookup_empty.
  - rewrite lookup_insert_ne; [apply lookup_empty|apply slot_1_2].
Qed.

Lemma id_slots_is_Some uid k :
  is_Some (id_slots uid !! k) ↔
  k = slot (Py.split_head uid) 1 ∨ k = slot (Py.split_head uid) 2.
Proof.
  split.
  - intros [v Hv].
    destruct (decide (k = slot (Py.split_head uid) 1)) as [|H1]; [by left|].
    destruct (decide (k = slot (Py.split_head uid) 2)) as [|H2]; [by right|].
    by rewrite id_slots_lookup_other in Hv.
  - intros [-> | ->]; [rewrite id_slots_lookup_1|rewrite id_slots_lookup_2]; eauto.
Qed.

(** C5: the weight is stored under the first numbered slot of its type family
    that the origin/destination mapping does not use yet (slot 1 unless the
    weight shares the family of the ids, slot 3 then), and the resulting
    mapping has exactly three distinct slot keys, mapped to origin,
    destination and weight. *)
Theorem weight_slot_probing (uid wcol : string) :
  ∃ n m,
    weight_slot_number uid wcol = Some n ∧
    attribute_mapping_relation uid wcol = Some m ∧
    (1 ≤ n)%nat ∧
    id_slots uid !! slot (Py.split_head wcol) n = None ∧
    (∀ k, (1 ≤ k < n)%nat → is_Some (id_slots uid !! slot (Py.split_head wcol) k)) ∧
    m !! slot (Py.split_head uid) 1 = Some "origin" ∧
    m !! slot (Py.split_head uid) 2 = Some "destination" ∧
    m !! slot (Py.split_head wcol) n = Some "weight" ∧
    slot (Py.split_head uid) 1 ≠ slot (Py.split_head uid) 2 ∧
    slot (Py.split_head uid) 1 ≠ slot (Py.split_head wcol) n ∧
    slot (Py.split_head uid) 2 ≠ slot (Py.split_head wcol) n ∧
    size m = 3%nat.
Proof.
  set (P := Py.split_head uid). set (W := Py.split_head wcol).
  assert (Hn : ∃ n, weight_slot_number uid wcol = Some n ∧ (1 ≤ n)%nat ∧
             id_slots uid !! slot W n = None ∧
             (∀ k, (1 ≤ k < n)%nat → is_Some (id_slots uid !! slot W k))).
  { unfold weight_slot_number. fold W.
    destruct (decide (is_Some (id_slots uid !! slot W 1))) as [Hin|Hout].
    - apply id_slots_is_Some in Hin as [Hin|Hin]; [|by apply slot_1_2 in Hin].
      apply slot_1_1 in Hin. fold P in Hin. rewrite Hin.
      exists 3%nat. rewrite id_slots_size. simpl.
      rewrite decide_True by (apply id_slots_is_Some; by left).
      rewrite decide_True by (apply id_slots_is_Some; by right).
      assert (H3 : id_slots uid !! slot P 3 = None).
      { apply id_slots_lookup_other; fold P; intros H%slot_inj_number; lia. }
      rewrite decide_False by (rewrite H3; by intros [? ?]).
      split_and!; [done|lia|done|].
      intros k Hk. apply id_slots_is_Some. fold P.
      assert (k = 1 ∨ k = 2)%nat as [-> | ->] by lia; auto.
    - exists 1%nat. split_and!; [done|lia| |intros; lia].
      by apply eq_None_not_Some. }
  destruct Hn as (n & Hn & Hge & Hfree & Hfirst).
  exists n, (<[slot W n := "weight"]> (id_slots uid)).
  assert (Hne1 : slot P 1 ≠ slot W n).
  { intros E. rewrite <- E in Hfree. unfold P in Hfree.
    by rewrite id_slots_lookup_1 in Hfree. }
  assert (Hne2 : slot P 2 ≠ slot W n).
  { intros E. rewrite <- E in Hfree. unfold P in Hfree.
    by rewrite id_slots_lookup_2 in Hfree. }
  split_and!; try done.
  - unfold attribute_mapping_relation. rewrite Hn. done.
  - rewrite lookup_insert_ne by done. apply id_slots_lookup_1.
  - rewrite lookup_insert_ne by done. apply id_slots_lookup_2.
  - by rewrite lookup_insert_eq.
  - apply slot_1_2.
  - rewrite map_size_insert_None by done. by rewrite id_slots_size.
Qed.
End od_mapping_facts.

Section od_mapping_examples.
Import Slot ODMapping.

(** Ids and weight of the integer family: the weight moves to slot 3. *)
Example attribute_mapping_relation_same_family :
  attribute_mapping_relation "integer_attr1" "integer_attr3"
  = Some {[ "integer_attr1" := "origin"; "integer_attr2" := "destination";
            "integer_attr3" := "weight" ]}.
Proof. vm_compute. reflexivity. Qed.

(** Integer ids and a float weight: the weight takes slot 1 of its family. *)
Example attribute_mapping_relation_other_family :
  attribute_mapping_relation "integer_attr1" "float_attr2"
  = Some {[ "integer_attr1" := "origin"; "integer_attr2" := "destination";
            "float_attr1" := "weight" ]}.
Proof. vm_compute. reflexivity. Qed.

(** Ids and weight of the integer family. *)
Lemma weight_slot_probing_witness :
  ∃ n m,
    weight_slot_number "integer_attr1" "integer_attr3" = Some n
    ∧ attribute_mapping_relation "integer_attr1" "integer_attr3" = Some m
    ∧ (1 ≤ n)%nat
    ∧ id_slots "integer_attr1" !! slot (Py.split_head "integer_attr3") n = None
    ∧ (∀ k, (1 ≤ k < n)%nat →
         is_Some (id_slots "integer_attr1"
                    !! slot (Py.split_head "integer_attr3") k))
    ∧ m !! slot (Py.split_head "integer_attr1") 1 = Some "origin"
    ∧ m !! slot (Py.split_head "integer_attr1") 2 = Some "destination"
    ∧ m !! slot (Py.split_head "integer_attr3") n = Some "weight"
    ∧ slot (Py.split_head "integer_attr1") 1 ≠ slot (Py.split_head "integer_attr1") 2
    ∧ slot (Py.split_head "integer_attr1") 1 ≠ slot (Py.split_head "integer_attr3") n
    ∧ slot (Py.split_head "integer_attr1") 2 ≠ slot (Py.split_head "integer_attr3") n
    ∧ size m = 3%nat.
Proof. exact (weight_slot_probing "integer_attr1" "integer_attr3"). Defined.

End od_mapping_examples.

(** ** Origin-destination: column-type validation *)

Section od_validation_facts.
Import Exec OD.
Context {G : Type}.
Variables (Integer Real Integer64 : string).
Variable search_value : gmap string string → string → option string.
Variable get_layers_project :
  IOriginDestination → exception + (layer_project * layer_project).
Variable temp_table_name : layer_project → string.
Variables (ST_Centroid : G → G) (ST_MakeLine : G → G → G).
Variable DefaultResultLayerName : string → string.
Variables (result_layer_relation_id result_layer_point_id : string).
Variable fails : statement → bool.

Notation run := (origin_destination Integer Real Integer64 search_value
  get_layers_project temp_table_name ST_Centroid ST_MakeLine
  DefaultResultLayerName result_layer_relation_id result_layer_point_id fails).

Lemma size_three_gt_1 (a b c : string) :
  (1 < size ({[a; b; c]} : gset string))%nat ↔ ¬ (a = b ∧ b = c).
Proof.
  split.
  - intros Hsz [-> ->].
    assert (E : ({[c; c; c]} : gset string) = {[c]}) by set_solver.
    rewrite E, size_singleton in Hsz. lia.
  - intros Hne.
    assert (∃ x y, x ≠ y ∧ x ∈ ({[a; b; c]} : gset string)
                   ∧ y ∈ ({[a; b; c]} : gset string)) as (x & y & Hxy & Hx & Hy).
    { destruct (decide (a = b)) as [->|Hab].
      - exists b, c. split_and!; [naive_solver|set_solver..].
      - exists a, b. split_and!; [done|set_solver..]. }
    assert (Hsub : ({[x]} ∪ {[y]} : gset string) ⊆ {[a; b; c]}) by set_solver.
    apply subseteq_size in Hsub.
    rewrite size_union in Hsub by set_solver.
    rewrite !size_singleton in Hsub. lia.
Qed.

Lemma check_id_columns_spec (u o d : string) (s : db G) :
  (check_id_columns u o d s = (inl (ColumnTypeError
     "The unique_id, origin and destination column must be of the same type"), s)
   ∧ ¬ same_family u o d)
  ∨ (check_id_columns u o d s = (inr tt, s) ∧ same_family u o d).
Proof.
  unfold check_id_columns, same_family. case_decide as Hsz.
  - left. split; [done|]. by apply size_three_gt_1.
  - right. split; [done|].
    destruct (decide (Py.split_head u = Py.split_head o
                      ∧ Py.split_head o = Py.split_head d)) as [|Hn]; [done|].
    by apply size_three_gt_1 in Hn.
Qed.

Lemma check_weight_column_spec (w : string) (s : db G) :
  (∃ msg, check_weight_column Integer Real Integer64 w s
            = (inl (ColumnTypeError msg), s)
          ∧ ¬ numeric_family Integer Real Integer64 w)
  ∨ (check_weight_column Integer Real Integer64 w s = (inr tt, s)
     ∧ numeric_family Integer Real Integer64 w).
Proof.
  unfold check_weight_column, numeric_family. case_decide; eauto.
Qed.

Lemma weight_message_not_id_message :
  "Mapped weight field is not " +:+ Integer +:+ ", " +:+ Real +:+ ", "
     +:+ Integer64 +:+ "." ≠ id_mismatch_message.
Proof. intros H. discriminate H. Qed.

(** The three ways a run can leave the validation phase. *)
Lemma od_run_cases params d gl ml u o dcol w :
  get_layers_project params = inr (gl, ml) →
  search_value (attribute_mapping gl) (unique_id_column params) = Some u →
  search_value (attribute_mapping ml) (origin_column params) = Some o →
  search_value (attribute_mapping ml) (destination_column params) = Some dcol →
  search_value (attribute_mapping ml) (weight_column params) = Some w →
  (¬ same_family u o dcol
     ∧ run params d = (inl (ColumnTypeError id_mismatch_message), d))
  ∨ (same_family u o dcol ∧ ¬ numeric_family Integer Real Integer64 w
     ∧ ∃ msg, msg ≠ id_mismatch_message
              ∧ run params d = (inl (ColumnTypeError msg), d))
  ∨ (same_family u o dcol ∧ numeric_family Integer Real Integer64 w
     ∧ ∀ msg, (run params d).1 ≠ inl (ColumnTypeError msg)).
Proof.
  intros Hl Hu Ho Hd Hw.
  unfold origin_destination, bind, lift, lookup_column.
  rewrite Hl. simpl. rewrite Hu, Ho, Hd. simpl.
  destruct (check_id_columns_spec u o dcol d) as [[-> Hn]|[-> Hs]].
  { left. done. }
  right. rewrite Hw. simpl.
  unfold check_weight_column. fold (numeric_family Integer Real Integer64 w).
  case_decide as Hnum; simpl.
  - right. split_and!; [done..|]. intros msg.
    destruct (ODMapping.attribute_mapping_relation u w); simpl; [|done].
    unfold create_temp_table_layer, create_feature_layer_tool, execute, bind, get, ret.
    repeat (destruct (fails _); simpl; [done|]). done.
  - left. split_and!; [done..|]. eexists. split; [|done].
    apply weight_message_not_id_message.
Qed.

(** C4 (amended): the run raises a column-type error exactly when the mapped
    unique-id, origin and destination columns do not share one type-family
    prefix or the mapped weight column is not of a numeric family; the error
    with the id-mismatch message is raised exactly in the first case; and
    whenever a column-type error is raised the database is left as it was: no
    temporary table has been created and no result row inserted. *)
Theorem od_column_type_error params d gl ml u o dcol w :
  get_layers_project params = inr (gl, ml) →
  search_value (attribute_mapping gl) (unique_id_column params) = Some u →
  search_value (attribute_mapping ml) (origin_column params) = Some o →
  search_value (attribute_mapping ml) (destination_column params) = Some dcol →
  search_value (attribute_mapping ml) (weight_column params) = Some w →
  ((∃ msg, (run params d).1 = inl (ColumnTypeError msg))
     ↔ ¬ same_family u o dcol ∨ ¬ numeric_family Integer Real Integer64 w)
  ∧ ((run params d).1 = inl (ColumnTypeError id_mismatch_message)
     ↔ ¬ same_family u o dcol)
  ∧ (∀ msg, (run params d).1 = inl (ColumnTypeError msg) → (run params d).2 = d).
Proof.
  intros Hl Hu Ho Hd Hw.
  destruct (od_run_cases params d gl ml u o dcol w Hl Hu Ho Hd Hw)
    as [[Hn ->]|[(Hs & Hn & msg & Hmsg & ->)|(Hs & Hnum & Hno)]]; simpl.
  - split_and!; [split; eauto|done|done].
  - split_and!; [split; eauto| |done].
    split; [intros [= ->]; done|done].
  - split_and!.
    + split; [intros [msg Hm]; by apply Hno in Hm|intros [?|?]; done].
    + split; [intros Hm; by apply Hno in Hm|done].
    + intros msg Hm. by apply Hno in Hm.
Qed.

End od_validation_facts.

Section od_validation_examples.
Import Exec OD ODFixtures.

Example search_value_trips :
  search_value (attribute_mapping flows_text_weight) "trips" = Some "text_attr1".
Proof. vm_compute. reflexivity. Qed.

(** The three id columns are all of the integer family, and yet the run
    raises a column-type error: the weight column is stored in a text slot. *)
Lemma od_column_type_error_only_ids_refuted :
  ¬ ((∃ msg, run_text_weight.1 = inl (ColumnTypeError msg))
     ↔ ¬ same_family "integer_attr1" "integer_attr1" "integer_attr2").
Proof.
  intros [H _]. apply H.
  - eexists. vm_compute. reflexivity.
  - split; reflexivity.
Qed.

(** The amended statement at the request with the text-slot weight. *)
Lemma od_column_type_error_witness :
  ((∃ msg, run_text_weight.1 = inl (ColumnTypeError msg))
     ↔ ¬ same_family "integer_attr1" "integer_attr1" "integer_attr2"
       ∨ ¬ numeric_family "integer" "float" "bigint" "text_attr1")
  ∧ (run_text_weight.1 = inl (ColumnTypeError id_mismatch_message)
     ↔ ¬ same_family "integer_attr1" "integer_attr1" "integer_attr2")
  ∧ (∀ msg, run_text_weight.1 = inl (ColumnTypeError msg)
            → run_text_weight.2 = empty_db).
Proof.
  apply (od_column_type_error "integer" "float" "bigint" search_value
           (λ _, inr (zones, flows_text_weight)) layer_id (λ g, g) (λ g _, g)
           (λ n, n) "relation-layer" "point-layer" (λ _, false)
           request empty_db zones flows_text_weight);
    vm_compute; reflexivity.
Defined.

End od_validation_examples.

(** ** Origin-destination: the relation query *)

Section od_relation_facts.
Import Exec OD.
Context {G : Type}.
Variables (ST_Centroid : G → G) (ST_MakeLine : G → G → G).
Variable result_layer_relation_id : string.
Implicit Types (geometry matrix : list (feature G)) (k : option Z * option Z).






(** The features that carry a given (non-NULL) unique id. *)
Local Notation sel uid x := (λ g : feature G, is_Some x ∧ attrs g !! uid = x).









End od_relation_facts.

Section od_run_facts.
Import Exec OD.
Context {G : Type}.
Variables (Integer Real Integer64 : string).
Variable search_value : gmap string string → string → option string.
Variable get_layers_project :
  IOriginDestination → exception + (layer_project * layer_project).
Variable temp_table_name : layer_project → string.
Variables (ST_Centroid : G → G) (ST_MakeLine : G → G → G).
Variable DefaultResultLayerName : string → string.
Variables (result_layer_relation_id result_layer_point_id : string).
Variable fails : statement → bool.

Notation run := (origin_destination Integer Real Integer64 search_value
  get_layers_project temp_table_name ST_Centroid ST_MakeLine
  DefaultResultLayerName result_layer_relation_id result_layer_point_id fails).



End od_run_facts.

Section od_relation_examples.
Import Exec OD ODFixtures.

Example run_flows_result :
  result_table_relation run_flows.2
  = [{| rel_layer_id := "relation-layer"; rel_geom := tt;
        rel_origin := Some 1; rel_destination := Some 2;
        rel_weight := Some 12 |}].
Proof. vm_compute. reflexivity. Qed.



End od_relation_examples.

(** ** The feature-count guard *)

Section feature_count_facts.
Import Exec FeatureCount.
Variable build_where_clause : list (option string) → option string.
Variable count_layer : string → string → Z.
Variable count_where : string → option string → Z.

Notation get_cnt := (get_feature_cnt build_where_clause count_layer count_where).
Notation check := (check_exceed_feature_cnt build_where_clause count_layer count_where).
Notation relevant := (relevant_count build_where_clause count_layer count_where).

Lemma get_feature_cnt_total layer wq :
  get_cnt layer wq !! "total_count"
  = Some (count_layer (table_name layer) (layer_id layer)).
Proof.
  unfold get_feature_cnt.
  destruct (str_truthy wq); simpl; case_match;
    by rewrite ?lookup_insert_ne, lookup_insert_eq by done.
Qed.

Lemma get_feature_cnt_filtered layer wq :
  get_cnt layer wq !! "filtered_count"
  = if str_truthy (effective_where build_where_clause layer wq)
    then Some (count_where (table_name layer)
                 (effective_where build_where_clause layer wq))
    else None.
Proof.
  unfold get_feature_cnt, effective_where.
  destruct (str_truthy wq); simpl; case_match;
    by rewrite ?lookup_insert_eq, ?lookup_insert_ne, ?lookup_empty by done.
Qed.

Lemma check_exceed_feature_cnt_unfold max layer wq :
  check max layer wq
  = if decide (relevant layer wq > max)
    then inl (HTTPException 422 (max_feature_detail max))
    else inr (get_cnt layer wq).
Proof.
  unfold check_exceed_feature_cnt, relevant_count.
  rewrite get_feature_cnt_filtered, get_feature_cnt_total.
  by destruct (str_truthy (effective_where build_where_clause layer wq)).
Qed.

Lemma max_feature_detail_inj max1 max2 :
  max_feature_detail max1 = max_feature_detail max2 → max1 = max2.
Proof.
  unfold max_feature_detail. intros H.
  apply (inj (String.app _)) in H.
  apply append_inj_suffix in H as [H _]; [|done].
  by apply (inj pretty) in H.
Qed.

(** C6: the guard raises the resource-limit error, whose message names the
    configured maximum, exactly when the relevant count (the filtered count
    when a where filter is in effect, the total count otherwise) is strictly
    greater than the maximum; otherwise, in particular for a count equal to
    the maximum, it returns the feature counts. *)
Theorem feature_count_guard max layer wq :
  (check max layer wq = inl (HTTPException 422 (max_feature_detail max))
     ↔ relevant layer wq > max)
  ∧ (check max layer wq = inr (get_cnt layer wq) ↔ relevant layer wq ≤ max)
  ∧ (relevant layer wq = max → check max layer wq = inr (get_cnt layer wq))
  ∧ (∀ max', max_feature_detail max = max_feature_detail max' → max = max')
  ∧ max_feature_detail max
    = "Operation not supported. The layer contains more than "
      +:+ pretty max
      +:+ " features. Please apply a filter to reduce the number of features."
  ∧ get_cnt layer wq !! "total_count"
    = Some (count_layer (table_name layer) (layer_id layer)).
Proof.
  rewrite check_exceed_feature_cnt_unfold.
  split_and!.
  - case_decide; split; try done; lia.
  - case_decide; split; try done; lia.
  - intros E. rewrite decide_False by lia. done.
  - apply max_feature_detail_inj.
  - done.
  - apply get_feature_cnt_total.
Qed.

End feature_count_facts.

Section feature_count_examples.
Import Exec FeatureCount FeatureCountFixtures.

(** A filtered count equal to the maximum passes, although the layer as a
    whole is larger. *)
Lemma feature_count_guard_witness :
  relevant_count build_where_clause count_layer count_where stations
    (Some "category = 'bus'") = 1000
  ∧ check_exceed_feature_cnt build_where_clause count_layer count_where 1000
      stations (Some "category = 'bus'")
    = inr (get_feature_cnt build_where_clause count_layer count_where stations
             (Some "category = 'bus'")).
Proof.
  split; [reflexivity|].
  apply (feature_count_guard build_where_clause count_layer count_where 1000
           stations (Some "category = 'bus'")).
  reflexivity.
Defined.

Example feature_count_unfiltered_exceeds :
  check_exceed_feature_cnt build_where_clause count_layer count_where 1000
    stations None
  = inl (HTTPException 422
      "Operation not supported. The layer contains more than 1000 features. Please apply a filter to reduce the number of features.").
Proof. vm_compute. reflexivity. Qed.

End feature_count_examples.

(** ** Temporary table names *)

Section uuid_facts.
Import UUID TempTables.

Lemma N_lt_16_cases (d : N) :
  (d < 16)%N →
  d ∈ [0; 1; 2; 3; 4; 5; 6; 7; 8; 9; 10; 11; 12; 13; 14; 15]%N.
Proof.
  intros H. repeat (rewrite elem_of_cons). rewrite elem_of_nil. lia.
Qed.

Lemma hex_char_inj (a b : N) :
  (a < 16)%N → (b < 16)%N → hex_char a = hex_char b → a = b.
Proof.
  intros Ha%N_lt_16_cases Hb%N_lt_16_cases.
  repeat (rewrite elem_of_cons in Ha). rewrite elem_of_nil in Ha.
  repeat (rewrite elem_of_cons in Hb). rewrite elem_of_nil in Hb.
  destruct_or!; subst; try done; intros H; discriminate H.
Qed.

Lemma hex_char_is_hex d : is_hex (hex_char d) = true.
Proof. unfold hex_char. repeat case_match; reflexivity. Qed.

Lemma hex_digits_length n x : String.length (hex_digits n x) = n.
Proof. induction n as [|n IH]; simpl; [done|]. by rewrite IH. Qed.

Lemma hex_digits_all_hex n x : all_chars is_hex (hex_digits n x) = true.
Proof.
  induction n as [|n IH]; simpl; [done|]. by rewrite hex_char_is_hex, IH.
Qed.

(** The digits determine the number up to [16 ^ n]. *)
Lemma hex_digits_inj n x y :
  hex_digits n x = hex_digits n y →
  (x mod 16 ^ N.of_nat n = y mod 16 ^ N.of_nat n)%N.
Proof.
  induction n as [|n IH]; intros H.
  { simpl. by rewrite !N.mod_1_r. }
  simpl in H. injection H as Hc Hrest.
  apply hex_char_inj in Hc; [|by apply N.mod_lt..].
  apply IH in Hrest.
  rewrite Nat2N.inj_succ, N.pow_succ_r'.
  rewrite (N.mul_comm 16), !N.Div0.mod_mul_r.
  by rewrite Hc, Hrest.
Qed.

Lemma all_chars_impl (P Q : ascii → bool) s :
  (∀ a, P a = true → Q a = true) →
  all_chars P s = true → all_chars Q s = true.
Proof.
  intros HPQ. induction s as [|a s IH]; simpl; [done|].
  intros [Ha Hs]%andb_true_iff. by rewrite (HPQ a Ha), IH.
Qed.

Lemma all_chars_substring P n m s :
  all_chars P s = true → all_chars P (String.substring n m s) = true.
Proof.
  revert n m. induction s as [|a s IH]; intros [|n] [|m]; simpl; try done.
  - intros [Ha Hs]%andb_true_iff. by rewrite Ha, IH.
  - intros [Ha Hs]%andb_true_iff. by apply IH.
  - intros [Ha Hs]%andb_true_iff. by apply IH.
Qed.

Lemma substring_split n m k s :
  String.substring n (m + k) s
  = String.substring n m s +:+ String.substring (n + m) k s.
Proof.
  revert n m. induction s as [|a s IH]; intros [|n] [|m]; simpl; try done.
  - change (String a (String.substring 0 (m + k) s)
            = String a (String.substring 0 m s +:+ String.substring m k s)).
    f_equal. apply (IH 0%nat m).
  - apply (IH n 0%nat).
  - apply (IH n (S m)).
Qed.

Lemma substring_all s : String.substring 0 (String.length s) s = s.
Proof. induction s as [|a s IH]; simpl; [done|]. by rewrite IH. Qed.

Lemma remove_char_app c s t :
  remove_char c (s +:+ t) = remove_char c s +:+ remove_char c t.
Proof.
  induction s as [|a s IH]; [done|].
  change (remove_char c (String a (s +:+ t))
          = remove_char c (String a s) +:+ remove_char c t).
  simpl. destruct (Ascii.eqb a c); [done|]. by rewrite IH.
Qed.

Lemma strip_non_alnum_app s t :
  strip_non_alnum (s +:+ t) = strip_non_alnum s +:+ strip_non_alnum t.
Proof.
  induction s as [|a s IH]; [done|].
  change (strip_non_alnum (String a (s +:+ t))
          = strip_non_alnum (String a s) +:+ strip_non_alnum t).
  simpl. destruct (is_alnum a); [|done]. by rewrite IH.
Qed.

Lemma remove_hyphen_hex s :
  all_chars is_hex s = true → remove_char "-" s = s.
Proof.
  induction s as [|a s IH]; simpl; [done|].
  intros [Ha Hs]%andb_true_iff. rewrite (IH Hs).
  destruct (Ascii.eqb a "-") eqn:E; [|done].
  apply Ascii.eqb_eq in E. subst a. discriminate Ha.
Qed.

Lemma is_hex_alnum a : is_hex a = true → is_alnum a = true.
Proof.
  unfold is_hex. intros H%bool_decide_eq_true.
  repeat (rewrite elem_of_cons in H). rewrite elem_of_nil in H.
  destruct_or!; subst; done.
Qed.

Lemma strip_non_alnum_hex s :
  all_chars is_hex s = true → strip_non_alnum s = s.
Proof.
  induction s as [|a s IH]; simpl; [done|].
  intros [Ha Hs]%andb_true_iff.
  by rewrite (is_hex_alnum a Ha), (IH Hs).
Qed.

Lemma hex32_groups h :
  String.length h = 32%nat →
  String.substring 0 8 h +:+ String.substring 8 4 h +:+ String.substring 12 4 h
    +:+ String.substring 16 4 h +:+ String.substring 20 12 h = h.
Proof.
  intros Hlen.
  pose proof (substring_split 16 4 12 h) as E1.
  pose proof (substring_split 12 4 16 h) as E2.
  pose proof (substring_split 8 4 20 h) as E3.
  pose proof (substring_split 0 8 24 h) as E4.
  change (16 + 4)%nat with 20%nat in E1. change (4 + 12)%nat with 16%nat in E1.
  change (12 + 4)%nat with 16%nat in E2. change (4 + 16)%nat with 20%nat in E2.
  change (8 + 4)%nat with 12%nat in E3. change (4 + 20)%nat with 24%nat in E3.
  change (0 + 8)%nat with 8%nat in E4. change (8 + 24)%nat with 32%nat in E4.
  rewrite <- E1, <- E2, <- E3, <- E4, <- Hlen. apply substring_all.
Qed.

Lemma app_empty_l (s : string) : EmptyString +:+ s = s.
Proof. reflexivity. Qed.

(** Removing the hyphens from [str(job_id)] leaves the 32 hex digits. *)
Lemma str_remove_hyphen u :
  remove_char "-" (str u) = hex_digits 32 (int u).
Proof.
  unfold str. rewrite !remove_char_app.
  change (remove_char "-" "-") with EmptyString.
  rewrite !remove_hyphen_hex
    by (apply all_chars_substring, hex_digits_all_hex).
  rewrite !app_empty_l. apply hex32_groups, hex_digits_length.
Qed.

(** Stripping every non-alphanumeric character gives the same digits. *)
Lemma str_strip_non_alnum u :
  strip_non_alnum (str u) = hex_digits 32 (int u).
Proof.
  unfold str. rewrite !strip_non_alnum_app.
  change (strip_non_alnum "-") with EmptyString.
  rewrite !strip_non_alnum_hex
    by (apply all_chars_substring, hex_digits_all_hex).
  rewrite !app_empty_l. apply hex32_groups, hex_digits_length.
Qed.

Lemma hex32_inj u1 u2 :
  valid u1 → valid u2 →
  hex_digits 32 (int u1) = hex_digits 32 (int u2) → u1 = u2.
Proof.
  unfold valid. intros H1 H2 H%hex_digits_inj.
  change (16 ^ N.of_nat 32)%N with (2 ^ 128)%N in H.
  rewrite !N.mod_small in H by done.
  destruct u1, u2. simpl in *. by subst.
Qed.

Lemma temp_table_names_form job_id :
  temp_table_names job_id
  = [ "temporal.total_stats_" +:+ hex_digits 32 (int job_id);
      "temporal.grouped_stats_" +:+ hex_digits 32 (int job_id);
      "temporal.h3_pregrouped_" +:+ hex_digits 32 (int job_id) ].
Proof.
  unfold temp_table_names, table_name_total_stats, table_name_grouped_stats,
    table_name_pre_grouped. by rewrite str_remove_hyphen.
Qed.

(** C8: the three temporary table names of a job are functions of the job id
    alone, built from the job id with its non-alphanumeric characters
    stripped, and no table name of one job equals a table name of a job with
    a different id. *)
Theorem temp_table_names_collision_free (job1 job2 : UUID.t) :
  valid job1 → valid job2 → job1 ≠ job2 →
  (table_name_total_stats job1
     = "temporal.total_stats_" +:+ strip_non_alnum (str job1)
   ∧ table_name_grouped_stats job1
     = "temporal.grouped_stats_" +:+ strip_non_alnum (str job1)
   ∧ table_name_pre_grouped job1
     = "temporal.h3_pregrouped_" +:+ strip_non_alnum (str job1))
  ∧ table_name_total_stats job1 ≠ table_name_total_stats job2
  ∧ table_name_grouped_stats job1 ≠ table_name_grouped_stats job2
  ∧ table_name_pre_grouped job1 ≠ table_name_pre_grouped job2
  ∧ (∀ n1 n2, n1 ∈ temp_table_names job1 → n2 ∈ temp_table_names job2 → n1 ≠ n2).
Proof.
  intros V1 V2 Hne.
  assert (Hhex : hex_digits 32 (int job1) ≠ hex_digits 32 (int job2)).
  { intros H. by apply Hne, hex32_inj. }
  assert (Hall : ∀ n1 n2, n1 ∈ temp_table_names job1 →
                   n2 ∈ temp_table_names job2 → n1 ≠ n2).
  { intros n1 n2. rewrite !temp_table_names_form.
    rewrite !elem_of_cons, !elem_of_nil.
    intros [->|[->|[->|[]]]] [->|[->|[->|[]]]] E;
      first [ apply (inj (String.app _)) in E; done | discriminate E ]. }
  split_and!.
  - unfold table_name_total_stats. by rewrite str_remove_hyphen, str_strip_non_alnum.
  - unfold table_name_grouped_stats. by rewrite str_remove_hyphen, str_strip_non_alnum.
  - unfold table_name_pre_grouped. by rewrite str_remove_hyphen, str_strip_non_alnum.
  - apply Hall; unfold temp_table_names; set_solver.
  - apply Hall; unfold temp_table_names; set_solver.
  - apply Hall; unfold temp_table_names; set_solver.
  - done.
Qed.

End uuid_facts.

Section uuid_examples.
Import UUID TempTables.

Example str_example :
  str {| int := 0x12345678123456781234567812345678 |}
  = "12345678-1234-5678-1234-567812345678".
Proof. vm_compute. reflexivity. Qed.

Example table_name_example :
  table_name_total_stats {| int := 0x12345678123456781234567812345678 |}
  = "temporal.total_stats_12345678123456781234567812345678".
Proof. vm_compute. reflexivity. Qed.

(** The jobs with the ids 1 and 2 share no table name. *)
Lemma temp_table_names_collision_free_witness :
  (table_name_total_stats {| int := 1 |}
     = "temporal.total_stats_" +:+ strip_non_alnum (str {| int := 1 |})
   ∧ table_name_grouped_stats {| int := 1 |}
     = "temporal.grouped_stats_" +:+ strip_non_alnum (str {| int := 1 |})
   ∧ table_name_pre_grouped {| int := 1 |}
     = "temporal.h3_pregrouped_" +:+ strip_non_alnum (str {| int := 1 |}))
  ∧ table_name_total_stats {| int := 1 |} ≠ table_name_total_stats {| int := 2 |}
  ∧ table_name_grouped_stats {| int := 1 |}
    ≠ table_name_grouped_stats {| int := 2 |}
  ∧ table_name_pre_grouped {| int := 1 |} ≠ table_name_pre_grouped {| int := 2 |}
  ∧ (∀ n1 n2, n1 ∈ temp_table_names {| int := 1 |} →
       n2 ∈ temp_table_names {| int := 2 |} → n1 ≠ n2).
Proof.
  apply (temp_table_names_collision_free {| int := 1 |} {| int := 2 |});
    [reflexivity|reflexivity|discriminate].
Defined.

End uuid_examples.

(** ** Validation of the isochrone starting points *)

Section starting_points_facts.
Import Exec StartingPoints.

Lemma check_bounds_cases lo hi msg l :
  (check_bounds lo hi msg l = inr tt ∧ Forall (λ x, lo <= x ∧ x <= hi)%Q l)
  ∨ (check_bounds lo hi msg l = inl (ValueError msg)
     ∧ ¬ Forall (λ x, lo <= x ∧ x <= hi)%Q l).
Proof.
  induction l as [|v l IH]; simpl.
  { left. split; [done|constructor]. }
  destruct (Qlt_le_dec v lo) as [Hlo|Hlo].
  { right. split; [done|]. intros [[H _] _]%Forall_cons.
    by apply Qle_not_lt in H. }
  destruct (Qlt_le_dec hi v) as [Hhi|Hhi].
  { right. split; [done|]. intros [[_ H] _]%Forall_cons.
    by apply Qle_not_lt in H. }
  destruct IH as [[-> Hall]|[-> Hnall]].
  - left. split; [done|]. by constructor.
  - right. split; [done|]. by intros [_ H]%Forall_cons.
Qed.

Lemma truthy_Some {A} (o : option (list A)) :
  Py.truthy o = true ↔ ∃ l, o = Some l ∧ l ≠ [].
Proof.
  destruct o as [[|x l]|]; simpl; split; try done.
  - intros (l & [= <-] & H). done.
  - intros _. by eexists.
  - intros (l & [=] & _).
Qed.

(** The validator accepts exactly the two forms, and returns the values
    unchanged. *)
Lemma check_either_cases v :
  (check_either_coords_or_layer_project_id v = inr v
   ∧ (coordinate_form v ∨ layer_form v))
  ∨ ((∃ msg, check_either_coords_or_layer_project_id v = inl (ValueError msg))
     ∧ ¬ (coordinate_form v ∨ layer_form v)).
Proof.
  unfold check_either_coords_or_layer_project_id, coordinate_form, layer_form.
  destruct v as [lat long layer]. simpl.
  destruct (Py.truthy lat) eqn:Tlat; simpl.
  2:{ destruct layer as [u|]; simpl.
      - left. split; [done|]. right. split; [by eexists|by left].
      - right. split; [by eexists|].
        intros [(la & lo & -> & _ & Hla & _)|[[? [=]] _]].
        by destruct la. }
  destruct (Py.truthy long) eqn:Tlong; simpl.
  2:{ destruct layer as [u|]; simpl.
      - left. split; [done|]. right. split; [by eexists|by right].
      - right. split; [by eexists|].
        intros [(la & lo & _ & -> & _ & Hlo & _)|[[? [=]] _]].
        by destruct lo. }
  apply truthy_Some in Tlat as (la & -> & Hla).
  apply truthy_Some in Tlong as (lo & -> & Hlo).
  destruct layer as [u|]; simpl.
  { right. split; [by eexists|]. intros [(? & ? & _ & _ & _ & _ & _ & _ & _ & [=])|H].
    by destruct H as [_ [?|?]]. }
  destruct (length la =? length lo)%nat eqn:Elen; simpl.
  2:{ right. split; [by eexists|].
      intros [(? & ? & [= <-] & [= <-] & _ & _ & E & _)|H]; [|by destruct H as [_ [?|?]]].
      apply Nat.eqb_neq in Elen. done. }
  apply Nat.eqb_eq in Elen.
  destruct (check_bounds_cases (-90) 90 "Latitude must be between -90 and 90." la)
    as [[-> Hlat]|[-> Hlat]].
  2:{ right. split; [by eexists|].
      intros [(? & ? & [= <-] & [= <-] & _ & _ & _ & H & _)|H];
        [done|by destruct H as [_ [?|?]]]. }
  destruct (check_bounds_cases (-180) 180
              "Longitude must be between -180 and 180." lo)
    as [[-> Hlon]|[-> Hlon]].
  2:{ right. split; [by eexists|].
      intros [(? & ? & [= <-] & [= <-] & _ & _ & _ & _ & H & _)|H];
        [done|by destruct H as [_ [?|?]]]. }
  left. split; [done|]. left. exists la, lo. done.
Qed.


(** C10: an active-mobility request with both coordinate lists supplied is
    rejected by validation whenever one of the lists has more than 1000
    entries. *)
Theorem active_mobility_max_starting_points v lat long :
  latitude v = Some lat → longitude v = Some long →
  lat ≠ [] → long ≠ [] →
  (1000 < length lat ∨ 1000 < length long)%nat →
  check_starting_points v
    = inl (ValueError "The maximum number of starting points is 1000.")
  ∧ ∃ msg, validate_active_mobility v = inl (ValueError msg).
Proof.
  intros Hlat Hlong Hla Hlo Hmax.
  assert (Hcheck : check_starting_points v
            = inl (ValueError "The maximum number of starting points is 1000.")).
  { unfold check_starting_points. rewrite Hlat, Hlong. simpl.
    destruct lat as [|x lat]; [done|]. destruct long as [|y long]; [done|].
    cbn [Py.truthy andb].
    destruct (1000 <? length (x :: lat))%nat eqn:E1; [done|].
    destruct (1000 <? length (y :: long))%nat eqn:E2; [done|].
    apply Nat.ltb_ge in E1, E2. lia. }
  split; [done|].
  unfold validate_active_mobility.
  destruct (check_either_cases v) as [[-> _]|[[msg ->] _]]; [|by eexists].
  rewrite Hcheck. by eexists.
Qed.

End starting_points_facts.

Section starting_points_examples.
Import Exec StartingPoints.



(** 1001 starting points are refused. *)
Lemma active_mobility_max_starting_points_witness :
  check_starting_points too_many_points
    = inl (ValueError "The maximum number of starting points is 1000.")
  ∧ ∃ msg, validate_active_mobility too_many_points = inl (ValueError msg).
Proof.
  apply (active_mobility_max_starting_points too_many_points
           (replicate 1001 0%Q) (replicate 1001 0%Q));
    [reflexivity|reflexivity|discriminate|discriminate|].
  left. rewrite length_replicate. lia.
Defined.

End starting_points_examples.

(** ** Aggregation: order of the final steps *)

Section aggregation_facts.
Import Exec Aggregation.
Variable get_layers_project :
  IAggregation → exception + (layer_project * option layer_project).
Variable check_column_statistics :
  layer_project → string → exception + (string * string).
Variable get_statistics_sql : string → ColumnStatisticsOperation → string.
Variable convert_geom_measurement_field : string → string.
Variable distributed_table_name : layer_project → string.
Variable new_layer_id : string.
Variable result_table : string.
Variable job_id : UUID.t.
Variable fails : statement → bool.

Notation run_point := (aggregate_point get_layers_project check_column_statistics
  get_statistics_sql distributed_table_name new_layer_id result_table job_id fails).
Notation run_polygon := (aggregate_polygon get_layers_project
  check_column_statistics get_statistics_sql convert_geom_measurement_field
  distributed_table_name new_layer_id result_table job_id fails).

Ltac exec_step H :=
  match type of H with
  | context [fails ?s] =>
      let E := fresh "E" in
      destruct (fails s) eqn:E; simpl in H; [discriminate H|]
  end.

Lemma aggregate_point_finished params d d' res :
  run_point params d = (inr res, d') →
  res.1 = "finished" ∧ finished_in_order new_layer_id result_table d d'.
Proof.
  unfold aggregate_point, prepare_aggregation, create_distributed_point_table,
    create_distributed_polygon_table, execute, bind, lift, ret, raise.
  intros H.
  destruct (get_layers_project params) as [e|[source agg]]; simpl in H;
    [discriminate H|].
  destruct (check_column_statistics source (field params)) as [e|[mapped ty]];
    simpl in H; [discriminate H|].
  destruct (feature_layer_geometry_type source), agg as [agg|],
    (Py.truthy (source_group_by_field params));
    simpl in H; repeat exec_step H; try discriminate H.
  all: injection H as <- <-; split; [done|].
  all: rewrite <- ?app_assoc; simpl.
  all: lazymatch goal with
       | |- finished_in_order _ _ _ (_ ++ ?l) =>
           exists (take (length l - 3) l); simpl; eexists; split; [reflexivity|]
       end.
  all: repeat constructor.
Qed.

Lemma aggregate_polygon_finished params d d' res :
  run_polygon params d = (inr res, d') →
  res.1 = "finished" ∧ finished_in_order new_layer_id result_table d d'.
Proof.
  unfold aggregate_polygon, prepare_aggregation, create_distributed_point_table,
    create_distributed_polygon_table, execute, bind, lift, ret, raise.
  intros H.
  destruct (get_layers_project params) as [e|[source agg]]; simpl in H;
    [discriminate H|].
  destruct (check_column_statistics source (field params)) as [e|[mapped ty]];
    simpl in H; [discriminate H|].
  destruct (feature_layer_geometry_type source), agg as [agg|],
    (Py.truthy (source_group_by_field params));
    simpl in H; repeat exec_step H; try discriminate H.
  all: try match type of H with
       | context [weighted_statistics ?a ?b ?c ?d] =>
           destruct (weighted_statistics a b c d) as [[? ?]|]; simpl in H;
           repeat exec_step H; try discriminate H
       end.
  all: injection H as <- <-; split; [done|].
  all: rewrite <- ?app_assoc; simpl.
  all: lazymatch goal with
       | |- finished_in_order _ _ _ (_ ++ ?l) =>
           exists (take (length l - 3) l); simpl; eexists; split; [reflexivity|]
       end.
  all: repeat constructor.
Qed.

(** C7: an aggregation run (of point or of polygon sources) that reports the
    finished status has, as its last three statements and in this order,
    inserted the result rows, registered the result layer and deleted the
    temporary tables; the status is never returned before the cleanup. *)
Theorem aggregation_finished_after_cleanup params d d' res :
  run_point params d = (inr res, d') ∨ run_polygon params d = (inr res, d') →
  res.1 = "finished"
  ∧ finished_in_order new_layer_id result_table d d'
  ∧ last d' = Some DeleteTempTables.
Proof.
  intros [H|H].
  - apply aggregate_point_finished in H as [Hres Hord]. split_and!; [done..|].
    destruct Hord as (before & source & -> & _).
    by rewrite !last_app.
  - apply aggregate_polygon_finished in H as [Hres Hord]. split_and!; [done..|].
    destruct Hord as (before & source & -> & _).
    by rewrite !last_app.
Qed.

End aggregation_facts.

(** ** Aggregation: rounding of the total statistics *)

Section rounding_facts.
Import Aggregation.





End rounding_facts.

Section aggregation_rounding.
Import Exec Aggregation.
Variable get_layers_project :
  IAggregation → exception + (layer_project * option layer_project).
Variable check_column_statistics :
  layer_project → string → exception + (string * string).
Variable get_statistics_sql : string → ColumnStatisticsOperation → string.
Variable convert_geom_measurement_field : string → string.
Variable distributed_table_name : layer_project → string.
Variable new_layer_id : string.
Variable result_table : string.
Variable job_id : UUID.t.
Variable fails : statement → bool.

Notation run_point := (aggregate_point get_layers_project check_column_statistics
  get_statistics_sql distributed_table_name new_layer_id result_table job_id fails).
Notation run_polygon := (aggregate_polygon get_layers_project
  check_column_statistics get_statistics_sql convert_geom_measurement_field
  distributed_table_name new_layer_id result_table job_id fails).






End aggregation_rounding.

Section aggregation_examples.
Import Exec Aggregation AggregationFixtures.


Example run_polygon_mean_total_stats :
  total_stats_exprs run_polygon_mean.2
  = [Round (Times (Statistic "AVG(temporal.parcels.integer_attr1)") AreaShare) 6].
Proof. vm_compute. reflexivity. Qed.




(** The polygon run of the example finishes after its cleanup. *)
Lemma aggregation_finished_after_cleanup_witness :
  ("finished", "Polygons where successfully aggregated.").1 = "finished"
  ∧ finished_in_order "result-layer" "user_data.polygon_u" [] run_polygon_mean.2
  ∧ last run_polygon_mean.2 = Some DeleteTempTables.
Proof.
  apply (aggregation_finished_after_cleanup (λ _, inr (parcels, Some districts))
           (λ _ _, inr ("integer_attr1", "integer")) statistics_sql (λ f, f)
           (λ layer, "temporal." +:+ layer_id layer) "result-layer"
           "user_data.polygon_u" job (λ _, false) mean_per_district []).
  right. vm_compute. reflexivity.
Defined.

End aggregation_examples.

(** ** Isochrone staging *)

Section staging_facts.
Import Exec Isochrone.
Context {P Geo : Type}.
Variable ST_MakePoint : Q → Q → P.
Variable ST_Intersects : P → Geo → bool.
Variable geofence : string → list Geo.
Variable get_layer : UUID.t → exception + string.
Variable new_layer_id : string.
Variable fails : statement → bool.

Notation stage := (create_or_return_layer_starting_points ST_MakePoint
  ST_Intersects geofence get_layer new_layer_id fails).
Notation check := (check_batch ST_MakePoint ST_Intersects geofence fails).
Notation insert := (insert_batch ST_MakePoint new_layer_id fails).

(** The inserts among the executed statements. *)
Notation inserts d := (filter (λ s, is_insert s = true) (executed d)).

Lemma check_batch_preserves table lat long i (d : db P) r d' :
  check table lat long i d = (r, d') →
  table_starting_points d' = table_starting_points d ∧ inserts d' = inserts d.
Proof.
  unfold check_batch, execute, bind, raise, ret.
  destruct (fails _); [by intros [= <- <-]|].
  case_decide; intros [= <- <-]; simpl;
    by rewrite filter_app, filter_cons_False, filter_nil, app_nil_r.
Qed.

(** The validation loop writes nothing. *)
Lemma validation_preserves table lat long idxs (d : db P) r d' :
  for_each idxs (check table lat long) d = (r, d') →
  table_starting_points d' = table_starting_points d ∧ inserts d' = inserts d.
Proof.
  revert d. induction idxs as [|i idxs IH]; intros d; simpl.
  { by intros [= <- <-]. }
  unfold bind.
  destruct (check table lat long i d) as [[e|[]] d1] eqn:E1;
    apply check_batch_preserves in E1 as [Ht Hi].
  - by intros [= <- <-].
  - intros H. apply IH in H as [Ht' Hi']. split; congruence.
Qed.

(** The insert loop only fails with a database error. *)
Lemma insert_loop_error lat long idxs (d : db P) e d' :
  for_each idxs (insert lat long) d = (inl e, d') → e = DatabaseError "execute".
Proof.
  revert d. induction idxs as [|i idxs IH]; intros d; simpl; [done|].
  unfold bind at 1, insert_batch at 1, execute.
  destruct (fails _); [by intros [= <- <-]|]. apply IH.
Qed.

(** X2: an out-of-geofence error leaves the starting-points table as it was:
    the error can only come from the validation loop, which runs to its end
    before the first insert. *)
Lemma out_of_geofence_inserts_nothing params (d : db P) msg d' :
  stage params d = (inl (OutOfGeofenceError msg), d') →
  table_starting_points d' = table_starting_points d ∧ inserts d' = inserts d.
Proof.
  unfold create_or_return_layer_starting_points.
  destruct (StartingPoints.layer_project_id _) as [id|].
  { unfold bind, execute, lift. destruct (fails _); [by intros [= <- <-]|].
    intros [= _ <-]. simpl.
    by rewrite filter_app, filter_cons_False, filter_nil, app_nil_r. }
  destruct (StartingPoints.latitude _) as [lat|]; [|by intros [= <- <-]].
  destruct (StartingPoints.longitude _) as [long|].
  2:{ destruct lat; by intros [= <- <-]. }
  unfold bind at 1.
  destruct (for_each (Py.range_step (length lat) 500)
              (check (geofence_table params) lat long) d) as [[e|[]] d1] eqn:E1.
  { simpl. intros [= -> <-]. by apply validation_preserves in E1. }
  simpl. unfold bind.
  destruct (for_each (Py.range_step (length lat) 500) (insert lat long) d1)
    as [[e|[]] d2] eqn:E2; simpl; [|done].
  intros [= -> <-]. by apply insert_loop_error in E2.
Qed.

Lemma range_from_covers fuel start len step k :
  (0 < step)%nat → (len - start ≤ fuel)%nat → (start ≤ k < len)%nat →
  ∃ b, b ∈ Py.range_from fuel start len step ∧ (b ≤ k < b + step)%nat.
Proof.
  intros Hstep. revert start.
  induction fuel as [|fuel IH]; intros start Hfuel Hk; [lia|].
  simpl. rewrite decide_True by lia.
  destruct (decide (k < start + step)%nat) as [Hin|Hout].
  - exists start. split; [by left|lia].
  - destruct (IH (start + step)%nat) as (b & Hb & Hkb); [lia..|].
    exists b. split; [by right|done].
Qed.

(** Every index of the request falls into one of the batches. *)
Lemma range_step_covers len step k :
  (0 < step)%nat → (k < len)%nat →
  ∃ b, b ∈ Py.range_step len step ∧ (b ≤ k < b + step)%nat.
Proof. intros. apply range_from_covers; lia. Qed.

Lemma slice_lookup {A} (l : list A) b n k x :
  (b ≤ k < b + n)%nat → l !! k = Some x → Py.slice l b n !! (k - b)%nat = Some x.
Proof.
  intros Hk Hx. unfold Py.slice.
  rewrite lookup_take_lt by lia. rewrite lookup_drop.
  by replace (b + (k - b))%nat with k by lia.
Qed.

Lemma for_each_raises {S A} (idxs : list A) (body : A → M S unit) b :
  b ∈ idxs → (∀ d, ∃ e d', body b d = (inl e, d')) →
  ∀ d, ∃ e d', for_each idxs body d = (inl e, d').
Proof.
  intros Hb Hbody. induction idxs as [|i idxs IH]; [by apply elem_of_nil in Hb|].
  intros d. simpl. unfold bind.
  destruct (body i d) as [[e|[]] d1] eqn:E; [by eauto|].
  apply elem_of_cons in Hb as [->|Hb].
  - destruct (Hbody d) as (e & d' & E'). congruence.
  - by apply IH.
Qed.

(** A batch that holds an uncovered starting point is refused. *)
Lemma check_batch_raises table lat long b k x y :
  (b ≤ k < b + 500)%nat → lat !! k = Some x → long !! k = Some y →
  outside ST_Intersects geofence table (ST_MakePoint x y) = true →
  ∀ d : db P, ∃ e d', check table lat long b d = (inl e, d').
Proof.
  intros Hk Hx Hy Hout d. unfold check_batch, execute, bind, raise.
  destruct (fails _); [by eauto|].
  rewrite decide_True; [by eauto|]. unfold cnt_not_intersecting.
  assert (Hin : ST_MakePoint x y
            ∈ filter (λ t, outside ST_Intersects geofence table t = true)
                (unnest_pairs ST_MakePoint (Py.slice lat b 500)
                   (Py.slice long b 500))).
  { apply list_elem_of_filter. split; [done|].
    unfold unnest_pairs. apply list_elem_of_bind. exists x. split.
    - apply list_elem_of_bind. exists y. split; [by left|].
      eapply list_elem_of_lookup_2, slice_lookup; done.
    - eapply list_elem_of_lookup_2, slice_lookup; done. }
  destruct (filter _ _); [by apply elem_of_nil in Hin|simpl; lia].
Qed.

(** X3: a request with a starting point outside the geofence is refused, and
    the starting-points table is left as it was. *)
Lemma offending_point_rejected params (d : db P) lat long k x y :
  StartingPoints.layer_project_id (starting_points params) = None →
  StartingPoints.latitude (starting_points params) = Some lat →
  StartingPoints.longitude (starting_points params) = Some long →
  lat !! k = Some x → long !! k = Some y →
  outside ST_Intersects geofence (geofence_table params) (ST_MakePoint x y) = true →
  ∃ e d', stage params d = (inl e, d')
    ∧ table_starting_points d' = table_starting_points d
    ∧ inserts d' = inserts d.
Proof.
  intros Hid Hlat Hlong Hx Hy Hout.
  unfold create_or_return_layer_starting_points. rewrite Hid, Hlat, Hlong.
  destruct (range_step_covers (length lat) 500 k) as (b & Hb & Hk);
    [lia|by eapply lookup_lt_Some|].
  destruct (for_each_raises _ _ b Hb
              (check_batch_raises (geofence_table params) lat long b k x y
                 Hk Hx Hy Hout) d) as (e & d' & E).
  exists e, d'. unfold bind at 1. rewrite E. split; [done|].
  by apply validation_preserves in E.
Qed.

End staging_facts.

Section staging_examples.
Import Exec Isochrone IsochroneFixtures.

(** C1: for the request with the starting points (10, 10) and (20, 20) and the
    service area between 5 and 15, one starting point lies outside the
    geofence, yet the message of the out-of-geofence error reports 3: the
    count runs over every latitude paired with every longitude of the batch.
    Nothing is inserted. *)
Theorem staging_reports_pair_count :
  stage_two_starts.1
    = inl (OutOfGeofenceError
        "There are 3 starting points that are not within the geofence. Please check your starting points.")
  ∧ offending_points pair covers service_area "basic.geofence_active_mobility"
      [10; 20]%Q [10; 20]%Q = [(20, 20)%Q]
  ∧ out_of_geofence_message 1 ≠ out_of_geofence_message 3
  ∧ table_starting_points stage_two_starts.2 = []
  ∧ executed stage_two_starts.2
    = [SelectNotIntersecting "basic.geofence_active_mobility"
         [10; 20]%Q [10; 20]%Q].
Proof.
  split_and!; try (vm_compute; reflexivity).
  vm_compute. discriminate.
Qed.

End staging_examples.

(** * Further properties of the modelled code *)

(** ** Batching of the coordinate lists ([crud_isochrone.py], lines 40-43
    and 69-72) *)

Section batching_facts.

Lemma range_from_concat {A} (l : list A) fuel start step :
  (0 < step)%nat → (length l - start ≤ fuel)%nat →
  mjoin ((λ i, Py.slice l i step) <$> Py.range_from fuel start (length l) step)
  = drop start l.
Proof.
  intros Hstep. revert start.
  induction fuel as [|fuel IH]; intros start Hfuel; simpl.
  { rewrite drop_ge by lia. done. }
  case_decide as Hlt; simpl.
  - rewrite IH by lia. unfold Py.slice.
    rewrite <- (take_drop step (drop start l)) at 2.
    by rewrite drop_drop.
  - rewrite drop_ge by lia. done.
Qed.

Lemma range_from_bounds fuel start len step i :
  i ∈ Py.range_from fuel start len step → (start ≤ i < len)%nat.
Proof.
  revert start. induction fuel as [|fuel IH]; intros start; simpl.
  { by intros ?%elem_of_nil. }
  case_decide; [|by intros ?%elem_of_nil].
  intros [->|Hi%IH]%elem_of_cons; lia.
Qed.

Lemma range_from_length fuel start len step :
  (0 < step)%nat → (len - start ≤ fuel)%nat →
  (length (Py.range_from fuel start len step) * step < len - start + step
   ∧ len - start ≤ length (Py.range_from fuel start len step) * step)%nat.
Proof.
  intros Hstep. revert start.
  induction fuel as [|fuel IH]; intros start Hfuel; simpl; [lia|].
  case_decide; simpl; [|lia].
  destruct (IH (start + step)%nat) as [H1 H2]; [lia|].
  destruct (length (Py.range_from fuel (start + step) len step));
    simpl in *; lia.
Qed.

(** X1: the batches of 500 partition the list: put one after the other they give
    the list back, each holds between 1 and 500 entries, and there are as
    many as the length divided by 500, rounded up. *)
Theorem batches_partition {A} (l : list A) :
  mjoin ((λ i, Py.slice l i 500) <$> Py.range_step (length l) 500) = l
  ∧ Forall (λ i, 1 ≤ length (Py.slice l i 500) ≤ 500)%nat
      (Py.range_step (length l) 500)
  ∧ length (Py.range_step (length l) 500) = ((length l + 499) / 500)%nat.
Proof.
  split_and!.
  - unfold Py.range_step. rewrite range_from_concat by lia. done.
  - apply Forall_forall. intros i Hi%range_from_bounds.
    unfold Py.slice. rewrite length_take, length_drop. lia.
  - destruct (range_from_length (length l) 0 (length l) 500) as [H1 H2]; [lia..|].
    fold (Py.range_step (length l) 500) in H1, H2.
    apply Nat.div_unique with
      (r := (length l + 499 - 500 * length (Py.range_step (length l) 500))%nat);
      lia.
Qed.

End batching_facts.

(** ** Isochrone staging: what a successful run stores *)

Section staging_success_facts.
Import Exec Isochrone.
Context {P Geo : Type}.
Variable ST_MakePoint : Q → Q → P.
Variable ST_Intersects : P → Geo → bool.
Variable geofence : string → list Geo.
Variable get_layer : UUID.t → exception + string.
Variable new_layer_id : string.
Variable fails : statement → bool.

Notation stage := (create_or_return_layer_starting_points ST_MakePoint
  ST_Intersects geofence get_layer new_layer_id fails).
Notation check := (check_batch ST_MakePoint ST_Intersects geofence fails).
Notation insert := (insert_batch ST_MakePoint new_layer_id fails).

(** The rows that the insert of one batch appends. *)
Notation batch_rows lat long i :=
  ((λ geom, (new_layer_id, geom))
     <$> unnest_pairs ST_MakePoint (Py.slice lat i 500) (Py.slice long i 500)).

Lemma insert_loop_table lat long idxs (d d' : db P) :
  for_each idxs (insert lat long) d = (inr tt, d') →
  table_starting_points d'
  = table_starting_points d ++ mjoin ((λ i, batch_rows lat long i) <$> idxs).
Proof.
  revert d. induction idxs as [|i idxs IH]; intros d; simpl.
  { intros [= <-]. by rewrite app_nil_r. }
  unfold bind at 1, insert_batch at 1, execute.
  destruct (fails _); [done|].
  intros H%IH. rewrite H. simpl. by rewrite app_assoc.
Qed.

Lemma unnest_pairs_length (lats lons : list Q) :
  length (unnest_pairs ST_MakePoint lats lons) = (length lats * length lons)%nat.
Proof.
  unfold unnest_pairs.
  assert (Hrow : ∀ lat, length (lon ← lons; [ST_MakePoint lat lon]) = length lons).
  { intros lat. induction lons as [|lon lons IHl]; [done|].
    rewrite bind_cons, length_app, IHl. done. }
  induction lats as [|lat lats IH]; [done|].
  rewrite bind_cons, length_app, IH, Hrow. done.
Qed.

Lemma unnest_pairs_diagonal (lats lons : list Q) k x y :
  lats !! k = Some x → lons !! k = Some y →
  ST_MakePoint x y ∈ unnest_pairs ST_MakePoint lats lons.
Proof.
  intros Hx Hy. unfold unnest_pairs.
  apply list_elem_of_bind. exists x. split; [|by eapply list_elem_of_lookup_2].
  apply list_elem_of_bind. exists y. split; [by left|by eapply list_elem_of_lookup_2].
Qed.

(** A validation loop that returns has found every starting point covered. *)
Lemma validation_passed table lat long idxs (d d' : db P) b k x y :
  for_each idxs (check table lat long) d = (inr tt, d') →
  b ∈ idxs → (b ≤ k < b + 500)%nat → lat !! k = Some x → long !! k = Some y →
  outside ST_Intersects geofence table (ST_MakePoint x y) = false.
Proof.
  intros Hrun Hb Hk Hx Hy.
  destruct (outside ST_Intersects geofence table (ST_MakePoint x y)) eqn:Hout;
    [|done].
  destruct (for_each_raises idxs (check table lat long) b Hb
              (check_batch_raises ST_MakePoint ST_Intersects geofence fails
                 table lat long b k x y Hk Hx Hy Hout) d) as (e & d1 & E).
  congruence.
Qed.

(** X4: a staging run on raw coordinates that returns hands back the new
    layer, keeps the rows that were stored before and appends rows that all
    carry the id of the new layer; every starting point (latitude k with
    longitude k) is covered by the geofence and is among the appended rows.
    Each batch contributes one row for every latitude paired with every
    longitude of the batch. *)
Theorem staging_stores_every_point params (d d' : db P) layer lat long :
  StartingPoints.layer_project_id (starting_points params) = None →
  StartingPoints.latitude (starting_points params) = Some lat →
  StartingPoints.longitude (starting_points params) = Some long →
  stage params d = (inr layer, d') →
  layer = new_layer_id
  ∧ ∃ rows,
      table_starting_points d' = table_starting_points d ++ rows
      ∧ Forall (λ row, row.1 = new_layer_id) rows
      ∧ (∀ k x y, lat !! k = Some x → long !! k = Some y →
           (new_layer_id, ST_MakePoint x y) ∈ rows
           ∧ outside ST_Intersects geofence (geofence_table params)
               (ST_MakePoint x y) = false)
      ∧ length rows
        = sum_list ((λ i, length (Py.slice lat i 500)
                          * length (Py.slice long i 500))%nat
                      <$> Py.range_step (length lat) 500).
Proof.
  intros Hid Hlat Hlong.
  unfold create_or_return_layer_starting_points. rewrite Hid, Hlat, Hlong.
  unfold bind at 1.
  destruct (for_each (Py.range_step (length lat) 500)
              (check (geofence_table params) lat long) d) as [[e|[]] d1] eqn:E1;
    [done|].
  unfold bind.
  destruct (for_each (Py.range_step (length lat) 500) (insert lat long) d1)
    as [[e|[]] d2] eqn:E2; [done|].
  intros [= <- <-]. split; [done|].
  apply insert_loop_table in E2.
  pose proof (validation_preserves ST_MakePoint ST_Intersects geofence fails
                _ _ _ _ _ _ _ E1) as [Ht _].
  rewrite Ht in E2.
  eexists. split; [exact E2|]. split_and!.
  - apply Forall_forall. intros row (rows & Hrow & Hrows)%list_elem_of_join.
    apply list_elem_of_fmap in Hrows as (i & -> & _).
    by apply list_elem_of_fmap in Hrow as (geom & -> & _).
  - intros k x y Hx Hy.
    destruct (range_step_covers (length lat) 500 k) as (b & Hb & Hk);
      [lia|by eapply lookup_lt_Some|].
    split.
    + apply list_elem_of_join. exists (batch_rows lat long b). split.
      * apply list_elem_of_fmap. eexists. split; [done|].
        eapply unnest_pairs_diagonal; by apply slice_lookup.
      * apply list_elem_of_fmap. by exists b.
    + by eapply validation_passed.
  - rewrite length_join, <- list_fmap_compose. f_equal.
    apply list_fmap_ext. intros _ i _. simpl.
    by rewrite length_fmap, unnest_pairs_length.
Qed.

End staging_success_facts.

Section staging_success_examples.
Import Exec Isochrone IsochroneFixtures.

Example stage_covered_starts_table :
  stage_covered_starts
  = (inr "starting-points",
     {| table_starting_points :=
          [("starting-points", (10, 10)%Q); ("starting-points", (10, 12)%Q);
           ("starting-points", (12, 10)%Q); ("starting-points", (12, 12)%Q)];
        executed :=
          [SelectNotIntersecting "basic.geofence_active_mobility"
             [10; 12]%Q [10; 12]%Q;
           InsertStartingPoints [10; 12]%Q [10; 12]%Q] |}).
Proof. vm_compute. reflexivity. Qed.

(** The refused request of two starting points leaves the table empty. *)
Lemma out_of_geofence_inserts_nothing_witness :
  table_starting_points stage_two_starts.2 = table_starting_points empty_db
  ∧ filter (λ s, is_insert s = true) (executed stage_two_starts.2)
    = filter (λ s, is_insert s = true) (executed empty_db).
Proof.
  apply (out_of_geofence_inserts_nothing pair covers service_area
           (λ _, inr "layer") "starting-points" (λ _, false) two_starts empty_db
           "There are 3 starting points that are not within the geofence. Please check your starting points.").
  vm_compute. reflexivity.
Defined.

(** The second starting point, (20, 20), is not covered. *)
Lemma offending_point_rejected_witness :
  ∃ e d', stage_two_starts = (inl e, d')
    ∧ table_starting_points d' = table_starting_points empty_db
    ∧ filter (λ s, is_insert s = true) (executed d')
      = filter (λ s, is_insert s = true) (executed empty_db).
Proof.
  apply (offending_point_rejected pair covers service_area
           (λ _, inr "layer") "starting-points" (λ _, false) two_starts empty_db
           [10; 20]%Q [10; 20]%Q 1 20%Q 20%Q); reflexivity.
Defined.

(** The accepted request stores its two points among four rows. *)
Lemma staging_stores_every_point_witness :
  "starting-points" = "starting-points"
  ∧ ∃ rows,
      table_starting_points stage_covered_starts.2
      = table_starting_points empty_db ++ rows
      ∧ Forall (λ row, row.1 = "starting-points") rows
      ∧ (∀ k x y, [10; 12]%Q !! k = Some x → [10; 12]%Q !! k = Some y →
           ("starting-points", (x, y)) ∈ rows
           ∧ outside covers service_area (geofence_table covered_starts) (x, y)
             = false)
      ∧ length rows
        = sum_list ((λ i, length (Py.slice [10; 12]%Q i 500)
                          * length (Py.slice [10; 12]%Q i 500))%nat
                      <$> Py.range_step (length [10; 12]%Q) 500).
Proof.
  apply (staging_stores_every_point pair covers service_area
           (λ _, inr "layer") "starting-points" (λ _, false) covered_starts
           empty_db stage_covered_starts.2 "starting-points"
           [10; 12]%Q [10; 12]%Q); reflexivity.
Defined.

End staging_success_examples.

(** ** Validation of active-mobility starting points, in full *)

Section active_mobility_validation_facts.
Import Exec StartingPoints.


End active_mobility_validation_facts.

Section active_mobility_validation_examples.
Import Exec StartingPoints.


End active_mobility_validation_examples.

(** ** Origin-destination: the point query *)

Section od_point_facts.
Import Exec OD.
Context {G : Type}.
Variable ST_Centroid : G → G.
Variable result_layer_point_id : string.
Implicit Types (geometry matrix : list (feature G)).

Local Notation sel uid x := (λ g : feature G, is_Some x ∧ attrs g !! uid = x).

Local Notation point_join uid d_col geometry matrix :=
  (g ← geometry; m ← matrix;
   if sql_eq (attrs g !! uid) (attrs m !! d_col) then [(g, m)] else []).







End od_point_facts.

Section od_point_examples.
Import Exec OD ODFixtures.

Example sql_query_points_flows :
  sql_query_points (λ g : unit, g) "point-layer" "integer_attr1" "integer_attr2"
    "integer_attr3" zone_rows flow_rows
  = [{| pt_layer_id := "point-layer"; pt_geom := tt; pt_weight := Some 12 |}].
Proof. vm_compute. reflexivity. Qed.


End od_point_examples.

(** ** Aggregation: failing runs and the temporary tables *)

Section aggregation_failure_facts.
Import Exec Aggregation.
Variable get_layers_project :
  IAggregation → exception + (layer_project * option layer_project).
Variable check_column_statistics :
  layer_project → string → exception + (string * string).
Variable get_statistics_sql : string → ColumnStatisticsOperation → string.
Variable convert_geom_measurement_field : string → string.
Variable distributed_table_name : layer_project → string.
Variable new_layer_id : string.
Variable result_table : string.
Variable job_id : UUID.t.
Variable fails : statement → bool.

Notation run_point := (aggregate_point get_layers_project check_column_statistics
  get_statistics_sql distributed_table_name new_layer_id result_table job_id fails).
Notation run_polygon := (aggregate_polygon get_layers_project
  check_column_statistics get_statistics_sql convert_geom_measurement_field
  distributed_table_name new_layer_id result_table job_id fails).


Ltac all_branches :=
  repeat (match goal with
          | |- context [fails ?s] => destruct (fails s) eqn:?; simpl
          end);
  try match goal with
  | |- context [weighted_statistics ?a ?b ?c ?d] =>
      destruct (weighted_statistics a b c d) as [[? ?]|] eqn:?; simpl;
      repeat (match goal with
              | |- context [fails ?s] => destruct (fails s) eqn:?; simpl
              end)
  end.


Lemma cleanup_logged (new : db) :
  DeleteTempTables ∈ new
  ↔ existsb (λ stmt, match stmt with DeleteTempTables => true | _ => false end)
      new = true.
Proof.
  rewrite existsb_exists. split.
  - intros H. exists DeleteTempTables. split; [by apply list_elem_of_In|done].
  - intros (stmt & H & E). destruct stmt; try done. by apply list_elem_of_In.
Qed.

Lemma log_facts_intro {A} (names : list string) (new : db) (r : exception + A) :
  Forall (λ stmt, ∀ t, statement_table stmt = Some t → t ∈ names) new →
  (if existsb (λ stmt, match stmt with DeleteTempTables => true | _ => false end)
        new
   then ∃ res, r = inr res else ∃ e, r = inl e) →
  (DeleteTempTables ∈ new ↔ ∃ res, r = inr res)
  ∧ ∀ stmt t, stmt ∈ new → statement_table stmt = Some t → t ∈ names.
Proof.
  intros Hnames Hr. split.
  - rewrite cleanup_logged. destruct (existsb _ new).
    + done.
    + destruct Hr as [e ->]. split; [done|]. by intros [? ?].
  - intros stmt t Hin. by apply (proj1 (Forall_forall _ _) Hnames).
Qed.

Ltac scoped_log :=
  repeat first
    [ apply Forall_nil_2
    | apply Forall_cons_2;
      [ let E := fresh in
        intros ? E; simpl in E;
        first [ discriminate E
              | injection E as <-;
                first [ apply list_elem_of_here
                      | apply list_elem_of_further, list_elem_of_here
                      | do 2 apply list_elem_of_further; apply list_elem_of_here ] ]
      | ] ].

Ltac log_facts :=
  rewrite <- ?app_assoc; simpl;
  first [ exists []; split; [by rewrite app_nil_r|]
        | eexists; split; [reflexivity|] ];
  apply log_facts_intro; [scoped_log | simpl; eexists; reflexivity].

(** A run's verdict and the statements it added to the log. *)
Lemma aggregate_point_log params d :
  ∃ new, (run_point params d).2 = d ++ new
    ∧ (DeleteTempTables ∈ new ↔ ∃ res, (run_point params d).1 = inr res)
    ∧ ∀ stmt t, stmt ∈ new → statement_table stmt = Some t →
        t ∈ TempTables.temp_table_names job_id.
Proof.
  unfold aggregate_point, prepare_aggregation, create_distributed_point_table,
    create_distributed_polygon_table, execute, bind, lift, ret, raise,
    table_name_total_stats, table_name_grouped_stats, table_name_pre_grouped,
    TempTables.temp_table_names.
  generalize (TempTables.table_name_total_stats job_id)
    (TempTables.table_name_grouped_stats job_id)
    (TempTables.table_name_pre_grouped job_id).
  intros total grouped pre_grouped.
  destruct (get_layers_project params) as [e|[source agg]]; simpl.
  { exists []. rewrite app_nil_r. split; [done|].
    apply log_facts_intro; [scoped_log | simpl; eexists; reflexivity]. }
  destruct (check_column_statistics source (field params)) as [e|[mapped ty]];
    simpl.
  { exists []. rewrite app_nil_r. split; [done|].
    apply log_facts_intro; [scoped_log | simpl; eexists; reflexivity]. }
  destruct (feature_layer_geometry_type source), agg as [agg|],
    (Py.truthy (source_group_by_field params)); simpl; all_branches;
    log_facts.
Qed.

Lemma aggregate_polygon_log params d :
  ∃ new, (run_polygon params d).2 = d ++ new
    ∧ (DeleteTempTables ∈ new ↔ ∃ res, (run_polygon params d).1 = inr res)
    ∧ ∀ stmt t, stmt ∈ new → statement_table stmt = Some t →
        t ∈ TempTables.temp_table_names job_id.
Proof.
  unfold aggregate_polygon, prepare_aggregation, create_distributed_point_table,
    create_distributed_polygon_table, execute, bind, lift, ret, raise,
    table_name_total_stats, table_name_grouped_stats, table_name_pre_grouped,
    TempTables.temp_table_names.
  generalize (TempTables.table_name_total_stats job_id)
    (TempTables.table_name_grouped_stats job_id)
    (TempTables.table_name_pre_grouped job_id).
  intros total grouped pre_grouped.
  destruct (get_layers_project params) as [e|[source agg]]; simpl.
  { exists []. rewrite app_nil_r. split; [done|].
    apply log_facts_intro; [scoped_log | simpl; eexists; reflexivity]. }
  destruct (check_column_statistics source (field params)) as [e|[mapped ty]];
    simpl.
  { exists []. rewrite app_nil_r. split; [done|].
    apply log_facts_intro; [scoped_log | simpl; eexists; reflexivity]. }
  destruct (feature_layer_geometry_type source), agg as [agg|],
    (Py.truthy (source_group_by_field params)); simpl; all_branches;
    log_facts.
Qed.

(** X8: the aggregation tools delete their temporary tables exactly in the
    runs that return: a run that ends in an exception, whichever statement
    raised it, has not executed the cleanup. *)
Theorem temp_tables_deleted_only_on_success params d :
  let point_run :=
    aggregate_point get_layers_project check_column_statistics
      get_statistics_sql distributed_table_name new_layer_id result_table
      job_id fails params d in
  let polygon_run :=
    aggregate_polygon get_layers_project check_column_statistics
      get_statistics_sql convert_geom_measurement_field distributed_table_name
      new_layer_id result_table job_id fails params d in
  (∃ new, point_run.2 = d ++ new
     ∧ (DeleteTempTables ∈ new ↔ ∃ res, point_run.1 = inr res))
  ∧ (∃ new, polygon_run.2 = d ++ new
     ∧ (DeleteTempTables ∈ new ↔ ∃ res, polygon_run.1 = inr res)).
Proof.
  intros point_run polygon_run. split.
  - destruct (aggregate_point_log params d) as (new & E & H & _). by exists new.
  - destruct (aggregate_polygon_log params d) as (new & E & H & _). by exists new.
Qed.

End aggregation_failure_facts.

Section aggregation_isolation_facts.
Import Exec Aggregation.



End aggregation_isolation_facts.

Section aggregation_failure_examples.
Import Exec Aggregation AggregationFixtures.



End aggregation_failure_examples.

(** ** Python dictionaries *)

Section pydict_facts.
Import PyDict.
Context {K V : Type} `{EqDecision K}.
Implicit Types (d : dict K V) (k : K) (v : V).

Lemma get_set k v d k' :
  get (set k v d) k' = if decide (k' = k) then Some v else get d k'.
Proof.
  induction d as [|[k0 v0] d IH]; simpl.
  - repeat case_decide; simplify_eq; done.
  - destruct (decide (k0 = k)) as [->|Hne]; simpl.
    + repeat case_decide; simplify_eq; done.
    + rewrite IH. repeat case_decide; simplify_eq; done.
Qed.

Lemma set_fresh k v d : k ∉ d.*1 → set k v d = d ++ [(k, v)].
Proof.
  induction d as [|[k0 v0] d IH]; simpl; [done|].
  intros Hk. apply not_elem_of_cons in Hk as [Hne Hk].
  rewrite decide_False by done. by rewrite IH.
Qed.

Lemma elem_of_set_keys k v d k' : k' ∈ (set k v d).*1 ↔ k' = k ∨ k' ∈ d.*1.
Proof.
  induction d as [|[k0 v0] d IH]; simpl.
  - rewrite elem_of_cons, elem_of_nil. tauto.
  - destruct (decide (k0 = k)) as [->|Hne]; simpl.
    + rewrite !elem_of_cons. tauto.
    + rewrite !elem_of_cons, IH. tauto.
Qed.

Lemma elem_of_set_values k v d v' : v' ∈ (set k v d).*2 → v' = v ∨ v' ∈ d.*2.
Proof.
  induction d as [|[k0 v0] d IH]; simpl.
  - rewrite elem_of_cons, elem_of_nil. tauto.
  - destruct (decide (k0 = k)) as [->|Hne]; simpl.
    + rewrite !elem_of_cons. tauto.
    + rewrite !elem_of_cons. intros [->|Hin]; [tauto|].
      destruct (IH Hin); tauto.
Qed.

Lemma set_keys_NoDup k v d : NoDup d.*1 → NoDup (set k v d).*1.
Proof.
  induction d as [|[k0 v0] d IH]; simpl.
  - intros _. apply NoDup_singleton.
  - rewrite NoDup_cons. intros [Hk0 Hd].
    destruct (decide (k0 = k)) as [->|Hne]; simpl.
    + by apply NoDup_cons.
    + apply NoDup_cons. split; [|by apply IH].
      rewrite elem_of_set_keys. intros [?|?]; done.
Qed.

Lemma set_values_NoDup k v d : NoDup d.*2 → v ∉ d.*2 → NoDup (set k v d).*2.
Proof.
  induction d as [|[k0 v0] d IH]; simpl.
  - intros _ _. apply NoDup_singleton.
  - rewrite NoDup_cons, not_elem_of_cons. intros [Hv0 Hd] [Hne Hv].
    destruct (decide (k0 = k)) as [->|Hk]; simpl.
    + by apply NoDup_cons.
    + apply NoDup_cons. split; [|by apply IH].
      intros [->|Hin]%elem_of_set_values; done.
Qed.

Lemma get_Some_elem_of d k v : NoDup d.*1 → get d k = Some v ↔ (k, v) ∈ d.
Proof.
  induction d as [|[k0 v0] d IH]; simpl.
  - intros _. rewrite elem_of_nil. done.
  - rewrite NoDup_cons, elem_of_cons. intros [Hk0 Hd].
    destruct (decide (k0 = k)) as [->|Hne].
    + split; [by intros [= ->]; left|].
      intros [[= ->]|Hin]; [done|].
      destruct Hk0. apply list_elem_of_fmap. by exists (k, v).
    + rewrite IH by done. split; [tauto|]. intros [[= -> ->]|?]; done.
Qed.

Lemma get_is_Some d k : is_Some (get d k) ↔ k ∈ d.*1.
Proof.
  induction d as [|[k0 v0] d IH]; simpl.
  - rewrite elem_of_nil. split; [by intros [? ?]|done].
  - rewrite elem_of_cons. destruct (decide (k0 = k)) as [->|Hne].
    + split; [by left|by eexists].
    + rewrite IH. split; [tauto|]. intros [?|?]; [congruence|done].
Qed.

End pydict_facts.

(** ** Attribute slots: the name determines family and number *)

Section slot_naming_facts.
Import Slot.

Local Notation no_r s := (∀ s1 s2 : string, s ≠ s1 +:+ String "r" s2).

Lemma string_app_assoc (s1 s2 s3 : string) :
  (s1 +:+ s2) +:+ s3 = s1 +:+ s2 +:+ s3.
Proof.
  induction s1 as [|c s1 IH]; [done|].
  change (String c ((s1 +:+ s2) +:+ s3) = String c (s1 +:+ s2 +:+ s3)).
  by rewrite IH.
Qed.

Lemma no_r_cons c s : c ≠ "r"%char → no_r s → no_r (String c s).
Proof.
  intros Hc Hs [|c' s1] s2.
  - change (String c s ≠ String "r" s2). congruence.
  - change (String c s ≠ String c' (s1 +:+ String "r" s2)).
    intros [= -> E]. by destruct (Hs s1 s2).
Qed.

Lemma no_r_empty : no_r "".
Proof. by intros [|c s1] s2. Qed.

Lemma pretty_N_go_no_r x s : no_r s → no_r (pretty_N_go x s).
Proof.
  revert s. induction (N.lt_wf_0 x) as [x _ IH]; intros s Hs.
  assert (x = 0 ∨ 0 < x)%N as [->|Hx] by lia.
  - by rewrite pretty_N_go_0.
  - rewrite pretty_N_go_step by done. apply IH; [by apply N.div_lt|].
    apply no_r_cons; [|done]. unfold pretty_N_char. by repeat case_match.
Qed.

Lemma pretty_nat_no_r (n : nat) : no_r (pretty n).
Proof.
  unfold pretty, pretty_nat, pretty, pretty_N. case_decide.
  - apply no_r_cons; [done|apply no_r_empty].
  - apply pretty_N_go_no_r, no_r_empty.
Qed.

Lemma last_r_unique a p b q :
  no_r p → no_r q →
  a +:+ String "r" p = b +:+ String "r" q → a = b ∧ p = q.
Proof.
  intros Hp Hq. revert b. induction a as [|c a IH]; intros [|c' b].
  - by intros [= ->].
  - change (String "r" p = String c' (b +:+ String "r" q) → "" = String c' b ∧ p = q).
    intros [= <- E]. by destruct (Hp b q).
  - change (String c (a +:+ String "r" p) = String "r" q → String c a = "" ∧ p = q).
    intros [= -> E]. by destruct (Hq a p).
  - change (String c (a +:+ String "r" p) = String c' (b +:+ String "r" q)
            → String c a = String c' b ∧ p = q).
    intros [= -> E]. destruct (IH _ E) as [-> ->]. done.
Qed.

(** A slot name determines its family and its number. *)
Lemma slot_inj family1 n1 family2 n2 :
  slot family1 n1 = slot family2 n2 → family1 = family2 ∧ n1 = n2.
Proof.
  unfold slot.
  change ("_attr" +:+ pretty n1) with ("_att" +:+ String "r" (pretty n1)).
  change ("_attr" +:+ pretty n2) with ("_att" +:+ String "r" (pretty n2)).
  rewrite <- !string_app_assoc.
  intros [E1 E2]%last_r_unique; [|apply pretty_nat_no_r..].
  apply append_inj_suffix in E1 as [-> _]; [|done].
  by apply (inj pretty) in E2.
Qed.

End slot_naming_facts.

(** ** File import: the attribute mapping *)

Section import_mapping_facts.
Import Exec PyDict Slot LayerImport.

Local Notation step field_type :=
  (λ '(attribute_mapping, cnt) field_name,
     if decide (field_name = "id") then (attribute_mapping, cnt)
     else (set field_name (slot field_type cnt) attribute_mapping, S cnt)).

(** The numbering of one type keeps the keys and the columns distinct, as
    long as the columns assigned so far belong to other types or to lower
    numbers of this type. *)
Lemma number_fields_invariant (done : list string) ty names :
  ty ∉ done → ∀ (m : dict string string) (cnt : nat),
  NoDup m.*1 → NoDup m.*2 →
  (∀ v, v ∈ m.*2 → ∃ t c, v = slot t c ∧ (t ∈ done ∨ (t = ty ∧ c < cnt)%nat)) →
  let r := foldl (step ty) (m, cnt) names in
  NoDup r.1.*1 ∧ NoDup r.1.*2
  ∧ (∀ v, v ∈ r.1.*2 → ∃ t c, v = slot t c ∧ (t ∈ done ∨ t = ty))
  ∧ (∀ k, k ∈ r.1.*1 ↔ k ∈ m.*1 ∨ (k ∈ names ∧ k ≠ "id")).
Proof.
  intros Hty. induction names as [|name names IH]; intros m cnt Hk Hv Hslots.
  - simpl. split_and!; [done|done| |].
    + intros v Hin. destruct (Hslots v Hin) as (t & c & -> & H).
      exists t, c. split; [done|]. tauto.
    + intros k. rewrite elem_of_nil. tauto.
  - simpl. destruct (decide (name = "id")) as [->|Hname].
    + destruct (IH m cnt Hk Hv Hslots) as (H1 & H2 & H3 & H4).
      split_and!; [done|done|done|].
      intros k. rewrite H4, elem_of_cons. split; [tauto|].
      intros [?|[[->|?] ?]]; tauto.
    + destruct (IH (set name (slot ty cnt) m) (S cnt)) as (H1 & H2 & H3 & H4).
      * by apply set_keys_NoDup.
      * apply set_values_NoDup; [done|]. intros Hin.
        destruct (Hslots _ Hin) as (t & c & [-> ->]%slot_inj & [?|[_ ?]]);
          [done|lia].
      * intros v [->|Hin]%elem_of_set_values.
        -- exists ty, cnt. split; [done|]. right. split; [done|lia].
        -- destruct (Hslots v Hin) as (t & c & -> & [?|[-> ?]]).
           ++ exists t, c. tauto.
           ++ exists ty, c. split; [done|]. right. split; [done|lia].
      * split_and!; [done|done|done|].
        intros k. rewrite H4, elem_of_set_keys, elem_of_cons. split.
        -- intros [[->|?]|[? ?]]; tauto.
        -- intros [?|[[->|?] ?]]; tauto.
Qed.

Lemma attribute_mapping_invariant valid :
  ∀ (done : list string) (m : dict string string),
  NoDup valid.*1 → (∀ t, t ∈ done → t ∉ valid.*1) →
  NoDup m.*1 → NoDup m.*2 →
  (∀ v, v ∈ m.*2 → ∃ t c, v = slot t c ∧ t ∈ done) →
  let m' := foldl (λ attribute_mapping '(field_type, field_names),
                     (number_fields field_type field_names attribute_mapping).1)
                  m valid in
  NoDup m'.*1 ∧ NoDup m'.*2
  ∧ (∀ k, k ∈ m'.*1
          ↔ k ∈ m.*1 ∨ (k ≠ "id" ∧ ∃ ty names, (ty, names) ∈ valid ∧ k ∈ names)).
Proof.
  induction valid as [|[ty names] valid IH]; intros done m Hvalid Hdone Hk Hv Hs.
  - simpl. split_and!; [done|done|]. intros k. split; [tauto|].
    intros [?|(_ & ? & ? & H%elem_of_nil & _)]; done.
  - simpl in Hvalid. apply NoDup_cons in Hvalid as [Hty Hvalid].
    cbn [foldl]. unfold number_fields at 2.
    destruct (number_fields_invariant done ty names) with (m := m) (cnt := 1%nat)
      as (H1 & H2 & H3 & H4); [| done | done | |].
    { intros Hin. apply (Hdone _ Hin). simpl. by left. }
    { intros v Hin. destruct (Hs v Hin) as (t & c & -> & ?).
      exists t, c. tauto. }
    destruct (IH (ty :: done)
                (foldl (step ty) (m, 1%nat) names).1) as (G1 & G2 & G3);
      [done| |done|done| |].
    { intros t [->|Hin]%elem_of_cons; [done|].
      intros Ht. apply (Hdone _ Hin). simpl. by right. }
    { intros v Hin. destruct (H3 v Hin) as (t & c & -> & [?| ->]).
      - exists t, c. split; [done|by right].
      - exists ty, c. split; [done|by left]. }
    split_and!; [done|done|]. intros k. rewrite G3, H4. split.
    + intros [[?|[? ?]]|(? & ty' & names' & ? & ?)].
      * by left.
      * right. split; [done|]. exists ty, names. split; [by left|done].
      * right. split; [done|]. exists ty', names'. split; [by right|done].
    + intros [?|(? & ty' & names' & [[= -> ->]|?]%elem_of_cons & ?)].
      * by left; left.
      * by left; right.
      * right. split; [done|]. by exists ty', names'.
Qed.

(** What the import maps: every field but [id]; no column twice. *)
Lemma attribute_mapping_wf valid :
  NoDup valid.*1 →
  NoDup (attribute_mapping valid).*1 ∧ NoDup (attribute_mapping valid).*2
  ∧ ∀ name, is_Some (get (attribute_mapping valid) name)
            ↔ name ≠ "id" ∧ ∃ ty names, (ty, names) ∈ valid ∧ name ∈ names.
Proof.
  intros Hvalid.
  destruct (attribute_mapping_invariant valid [] []) as (H1 & H2 & H3);
    [done|by intros ? ?%elem_of_nil|apply NoDup_nil_2|apply NoDup_nil_2
    |by intros ? ?%elem_of_nil|].
  split_and!; [done|done|]. intros name.
  unfold attribute_mapping. rewrite get_is_Some, H3. simpl.
  rewrite elem_of_nil. tauto.
Qed.

Lemma invert_from_get (m inverted : dict string string) column name :
  NoDup m.*2 →
  get (foldl (λ inverted '(key, value), set value key inverted) inverted m)
    column = Some name
  ↔ (name, column) ∈ m ∨ (column ∉ m.*2 ∧ get inverted column = Some name).
Proof.
  revert inverted. induction m as [|[k v] m IH]; intros inverted Hv.
  - simpl. rewrite !elem_of_nil. tauto.
  - simpl in Hv. apply NoDup_cons in Hv as [Hv Hm]. cbn [foldl].
    rewrite IH by done. rewrite get_set. simpl.
    rewrite !elem_of_cons.
    assert (Hin : (name, v) ∈ m → False).
    { intros Hin. destruct Hv. apply list_elem_of_fmap. by exists (name, v). }
    destruct (decide (column = v)) as [->|Hne].
    + split.
      * intros [?|[_ [= ->]]]; [done|by left; left].
      * intros [[[= ->]|?]|[H _]]; [by right|done|]. destruct H. by left.
    + split.
      * intros [?|[? ?]]; [by left; right|]. right. split; [|done].
        intros [?|?]; done.
      * intros [[[= _ ->]|?]|[H ?]]; [done|by left|]. right. split; [|done].
        intros ?. apply H. by right.
Qed.

Lemma invert_get (m : dict string string) column name :
  NoDup m.*1 → NoDup m.*2 →
  get (invert m) column = Some name ↔ get m name = Some column.
Proof.
  intros Hk Hv. unfold invert. rewrite invert_from_get by done.
  rewrite (get_Some_elem_of m) by done. simpl. split; [|tauto].
  intros [?|[_ ?]]; done.
Qed.

Lemma invert_keys_NoDup (m inverted : dict string string) :
  NoDup inverted.*1 →
  NoDup (foldl (λ inverted '(key, value), set value key inverted) inverted m).*1.
Proof.
  revert inverted. induction m as [|[k v] m IH]; intros inverted H; [done|].
  cbn [foldl]. by apply IH, set_keys_NoDup.
Qed.

(** X10: the column-to-field mapping stored with an imported layer is the
    exact inverse of the field-to-column mapping used for the migration: a
    column leads back to the field it was assigned to, and to nothing else.
    Every field of the file other than [id] is mapped, [id] never is, and no
    two fields share a column. *)
Theorem import_attribute_mapping_inverse (valid : dict string (list string)) :
  NoDup valid.*1 →
  (∀ name, is_Some (get (attribute_mapping valid) name)
           ↔ name ≠ "id" ∧ ∃ ty names, (ty, names) ∈ valid ∧ name ∈ names)
  ∧ (∀ name1 name2 column,
       get (attribute_mapping valid) name1 = Some column →
       get (attribute_mapping valid) name2 = Some column → name1 = name2)
  ∧ (∀ column name,
       get (invert (attribute_mapping valid)) column = Some name
       ↔ get (attribute_mapping valid) name = Some column).
Proof.
  intros Hvalid. destruct (attribute_mapping_wf valid Hvalid) as (Hk & Hv & Hdom).
  split_and!; [done| |].
  - intros name1 name2 column H1 H2.
    apply invert_get in H1, H2; try done. congruence.
  - intros column name. by apply invert_get.
Qed.

End import_mapping_facts.

Section import_numbering_facts.
Import Exec PyDict Slot LayerImport.

Local Notation step field_type :=
  (λ '(attribute_mapping, cnt) field_name,
     if decide (field_name = "id") then (attribute_mapping, cnt)
     else (set field_name (slot field_type cnt) attribute_mapping, S cnt)).
Local Notation named := (λ field_name : string, field_name ≠ "id").
Local Notation numbered field_type cnt :=
  (imap (λ i field_name, (field_name, slot field_type (cnt + i)))).

Lemma numbered_keys field_type cnt (names : list string) :
  (numbered field_type cnt names).*1 = names.
Proof.
  revert cnt. induction names as [|name names IH]; intros cnt; [done|].
  simpl. f_equal. rewrite <- (IH (S cnt)) at 2. f_equal.
  apply imap_ext. intros i x _. simpl. by rewrite Nat.add_succ_r.
Qed.

Lemma number_fields_fresh ty names :
  ∀ (m : dict string string) (cnt : nat),
  NoDup (filter named names) →
  (∀ n, n ∈ names → n ≠ "id" → n ∉ m.*1) →
  foldl (step ty) (m, cnt) names
  = (m ++ numbered ty cnt (filter named names),
     (cnt + length (filter named names))%nat).
Proof.
  induction names as [|name names IH]; intros m cnt Hnd Hfresh.
  - simpl. by rewrite app_nil_r, Nat.add_0_r.
  - cbn [foldl]. destruct (decide (name = "id")) as [->|Hname].
    + rewrite filter_cons_False in Hnd |- * by (by intros ?).
      apply IH; [done|]. intros n Hn. apply Hfresh. by right.
    + rewrite filter_cons_True in Hnd |- * by done.
      apply NoDup_cons in Hnd as [Hnew Hnd].
      rewrite set_fresh by (apply Hfresh; [by left|done]).
      rewrite IH; [|done|].
      * simpl. rewrite <- app_assoc, Nat.add_0_r, Nat.add_succ_r. simpl.
        do 3 f_equal. apply imap_ext. intros i x _. simpl.
        by rewrite Nat.add_succ_r.
      * intros n Hn Hid. rewrite fmap_app, elem_of_app. simpl.
        intros [Hin|Hin%list_elem_of_singleton].
        -- by apply (Hfresh n); [right|..].
        -- subst n. apply Hnew. by apply list_elem_of_filter.
Qed.

Lemma attribute_mapping_fresh (valid : dict string (list string)) :
  ∀ m : dict string string,
  NoDup (filter named (mjoin valid.*2)) →
  (∀ n, n ∈ mjoin valid.*2 → n ≠ "id" → n ∉ m.*1) →
  foldl (λ attribute_mapping '(field_type, field_names),
           (number_fields field_type field_names attribute_mapping).1)
        m valid
  = m ++ mjoin ((λ '(field_type, field_names),
                   numbered field_type 1 (filter named field_names))
                  <$> valid).
Proof.
  induction valid as [|[ty names] valid IH]; intros m Hnd Hfresh.
  - simpl. by rewrite app_nil_r.
  - cbn [foldl]. simpl in Hnd, Hfresh. rewrite filter_app in Hnd.
    apply NoDup_app in Hnd as (Hnames & Hdisj & Hrest).
    unfold number_fields at 2. rewrite number_fields_fresh; [|done|].
    2:{ intros n Hn. apply Hfresh, elem_of_app. by left. }
    cbn [fst]. rewrite IH; [|done|].
    + simpl. by rewrite <- app_assoc.
    + intros n Hn Hid. rewrite fmap_app, elem_of_app, numbered_keys.
      intros [Hin|Hin].
      * apply (Hfresh n); [|done..]. apply elem_of_app. by right.
      * apply (Hdisj n Hin). by apply list_elem_of_filter.
Qed.

(** X11: when the field names of the file are pairwise different, the
    mapping lists the fields in the order of the file, type after type, and
    gives the i-th field of a type that is not [id] the column
    [<type>_attr<i>], counting from 1 without gaps. *)
Theorem import_attribute_mapping_numbering (valid : dict string (list string)) :
  NoDup (filter (λ field_name, field_name ≠ "id") (mjoin valid.*2)) →
  attribute_mapping valid
  = mjoin ((λ '(field_type, field_names),
              imap (λ i field_name, (field_name, slot field_type (S i)))
                (filter (λ field_name, field_name ≠ "id") field_names))
             <$> valid).
Proof.
  intros Hnd. unfold attribute_mapping.
  rewrite attribute_mapping_fresh; [done|done|].
  intros n _ _. by intros ?%elem_of_nil.
Qed.

End import_numbering_facts.

(** ** The column lookup of the statistics endpoints *)

Section column_lookup_facts.
Import Exec PyDict Slot LayerImport.
Variable get_layer : UUID.t → option Layer.
Variable build_where : UUID.t → string → string → dict string string → string.

Lemma first_key_of_elem_of (stored : dict string string) column_name column :
  first_key_of stored column_name = Some column → (column, column_name) ∈ stored.
Proof.
  unfold first_key_of.
  destruct (filter _ stored) as [|[c n] rest] eqn:E; [done|].
  intros [= <-].
  assert (Hin : (c, n) ∈ filter (λ item, item.2 = column_name) stored)
    by (rewrite E; by left).
  apply list_elem_of_filter in Hin as [Hn Hin]. simpl in Hn. by subst.
Qed.

Lemma first_key_of_None (stored : dict string string) column_name column :
  first_key_of stored column_name = None → (column, column_name) ∉ stored.
Proof.
  unfold first_key_of.
  destruct (filter _ stored) as [|[c n] rest] eqn:E; [|done].
  intros _ Hin.
  assert (Hf : (column, column_name) ∈ filter (λ item, item.2 = column_name) stored)
    by (by apply list_elem_of_filter).
  rewrite E in Hf. by apply elem_of_nil in Hf.
Qed.

Lemma stored_mapping_elem_of valid (stored : dict string string) column name :
  NoDup valid.*1 →
  stored ≡ₚ invert (attribute_mapping valid) →
  (column, name) ∈ stored ↔ get (attribute_mapping valid) name = Some column.
Proof.
  intros Hvalid Hperm. rewrite Hperm.
  destruct (attribute_mapping_wf valid Hvalid) as (Hk & Hv & _).
  rewrite <- invert_get by done. symmetry. apply get_Some_elem_of.
  apply invert_keys_NoDup, NoDup_nil_2.
Qed.

(** X12: on a layer created by the import, in whatever order its stored
    mapping is read back, the statistics endpoints find for a field of the
    file exactly the column that the import assigned to it, and answer 404
    [Column not found] for [id] and for every name that is not a field of
    the file. *)
Theorem imported_column_lookup valid id imported column_name query :
  NoDup valid.*1 →
  get_layer id = Some imported →
  type imported = feature ∨ type imported = table →
  layer_attribute_mapping imported ≡ₚ invert (attribute_mapping valid) →
  check_if_column_suitable_for_stats get_layer build_where id column_name query
  = match get (attribute_mapping valid) column_name with
    | Some column =>
        inr {| layer := imported; column_mapped := column;
               where_query :=
                 build_where (LayerImport.id imported) (table_name imported)
                   query (layer_attribute_mapping imported) |}
    | None => inl (HTTPException 404 "Column not found")
    end
  ∧ (get (attribute_mapping valid) column_name = None
     ↔ column_name = "id"
       ∨ ∀ ty names, (ty, names) ∈ valid → column_name ∉ names).
Proof.
  intros Hvalid Hget Htype Hperm. split.
  - unfold check_if_column_suitable_for_stats, get_internal. rewrite Hget.
    assert (Hint : match type imported with
                   | feature | table => inr imported
                   | _ => inl (HTTPException 422
                      "Layer is not a feature layer or table layer. The requested operation cannot be performed on this layer.")
                   end = @inr exception _ imported)
      by (by destruct Htype as [-> | ->]).
    rewrite Hint.
    destruct (first_key_of (layer_attribute_mapping imported) column_name)
      as [column|] eqn:E.
    + apply first_key_of_elem_of in E.
      apply (stored_mapping_elem_of valid) in E; [|done..]. by rewrite E.
    + destruct (get (attribute_mapping valid) column_name) as [column|] eqn:G;
        [|done].
      apply (stored_mapping_elem_of valid (layer_attribute_mapping imported))
        in G; [|done..].
      by apply first_key_of_None with (column := column) in E.
  - destruct (attribute_mapping_wf valid Hvalid) as (_ & _ & Hdom).
    rewrite eq_None_not_Some, Hdom. split.
    + intros Hnot. destruct (decide (column_name = "id")) as [?|Hid]; [by left|].
      right. intros ty names Hin Hname. apply Hnot. split; [done|].
      by exists ty, names.
    + intros [-> |Hnone] [Hid (ty & names & Hin & Hname)]; [done|].
      by apply (Hnone ty names).
Qed.

End column_lookup_facts.

Section import_examples.
Import Exec PyDict Slot LayerImport LayerImportFixtures.

Example census_attribute_mapping :
  attribute_mapping census_columns
  = [("population", "integer_attr1"); ("year", "integer_attr2");
     ("name", "string_attr1")]
  ∧ invert (attribute_mapping census_columns)
    = [("integer_attr1", "population"); ("integer_attr2", "year");
       ("string_attr1", "name")].
Proof. split; vm_compute; reflexivity. Qed.

Lemma import_attribute_mapping_inverse_witness :
  (∀ name, is_Some (get (attribute_mapping census_columns) name)
           ↔ name ≠ "id"
             ∧ ∃ ty names, (ty, names) ∈ census_columns ∧ name ∈ names)
  ∧ (∀ name1 name2 column,
       get (attribute_mapping census_columns) name1 = Some column →
       get (attribute_mapping census_columns) name2 = Some column →
       name1 = name2)
  ∧ (∀ column name,
       get (invert (attribute_mapping census_columns)) column = Some name
       ↔ get (attribute_mapping census_columns) name = Some column).
Proof.
  apply (import_attribute_mapping_inverse census_columns).
  apply (bool_decide_unpack _). vm_compute. exact I.
Defined.

Lemma import_attribute_mapping_numbering_witness :
  attribute_mapping census_columns
  = mjoin ((λ '(field_type, field_names),
              imap (λ i field_name, (field_name, slot field_type (S i)))
                (filter (λ field_name, field_name ≠ "id") field_names))
             <$> census_columns).
Proof.
  apply (import_attribute_mapping_numbering census_columns).
  apply (bool_decide_unpack _). vm_compute. exact I.
Defined.

Lemma imported_column_lookup_witness :
  check_if_column_suitable_for_stats (λ _, Some census) build_where
    {| UUID.int := 7 |} "year" ""
  = match get (attribute_mapping census_columns) "year" with
    | Some column =>
        inr {| layer := census; column_mapped := column;
               where_query :=
                 build_where (LayerImport.id census) (table_name census) ""
                   (layer_attribute_mapping census) |}
    | None => inl (HTTPException 404 "Column not found")
    end
  ∧ (get (attribute_mapping census_columns) "year" = None
     ↔ "year" = "id"
       ∨ ∀ ty names, (ty, names) ∈ census_columns → "year" ∉ names).
Proof.
  apply (imported_column_lookup (λ _, Some census) build_where census_columns
           {| UUID.int := 7 |} census "year" "").
  - apply (bool_decide_unpack _). vm_compute. exact I.
  - reflexivity.
  - left. reflexivity.
  - reflexivity.
Defined.

End import_examples.

(** ** The user-data tables of the layers *)

Section layer_table_facts.
Import Exec LayerTables.
Variable USER_DATA_SCHEMA : string.

Lemma layer_table_name_inj (label1 label2 : string) (user1 user2 : UUID.t) :
  UUID.valid user1 → UUID.valid user2 →
  USER_DATA_SCHEMA +:+ "." +:+ label1 +:+ "_"
    +:+ TempTables.remove_char "-" (UUID.str user1)
  = USER_DATA_SCHEMA +:+ "." +:+ label2 +:+ "_"
    +:+ TempTables.remove_char "-" (UUID.str user2) →
  label1 = label2 ∧ user1 = user2.
Proof.
  intros V1 V2 E. rewrite !str_remove_hyphen in E.
  apply (inj (String.app _)) in E. apply (inj (String.app ".")) in E.
  apply append_inj_suffix in E as [-> E].
  - apply (inj (String.app "_")) in E. split; [done|]. by apply hex32_inj.
  - change (S (String.length (UUID.hex_digits 32 (UUID.int user1)))
            = S (String.length (UUID.hex_digits 32 (UUID.int user2)))).
    by rewrite !hex_digits_length.
Qed.

Lemma internal_layer_table_name_label v n :
  internal_layer_table_name USER_DATA_SCHEMA v = inr n →
  ∃ label,
    n = USER_DATA_SCHEMA +:+ "." +:+ label +:+ "_"
        +:+ TempTables.remove_char "-" (UUID.str (user_id v))
    ∧ ((type v = "feature" ∧ label = feature_layer_geometry_type v)
       ∨ (type v = "table" ∧ label = "no_geometry")).
Proof.
  unfold internal_layer_table_name.
  generalize (TempTables.remove_char "-" (UUID.str (user_id v))). intros hex.
  destruct (decide (type v = "feature")) as [T|T].
  - intros [= <-]. eexists. split; [reflexivity|]. by left.
  - destruct (decide (type v = "table")) as [T'|T']; [|by intros [=]].
    intros [= <-]. eexists. split; [reflexivity|]. by right.
Qed.

(** X13: the table of a layer is determined by the owner and the kind of
    geometry and by nothing else. Layers of different users never share a
    table; two feature layers of one user share a table exactly when they
    have the same geometry type; a layer without geometry shares its table
    with no feature layer of a point, line or polygon type. A layer that
    is neither a feature layer nor a table has no table: the function raises
    a value error. The starting points of the isochrones are staged in the
    table of the user's point layers, the aggregation results are written
    to the table of the user's polygon layers. *)
Theorem layer_tables_by_user_and_geometry (v1 v2 : layer_values) :
  UUID.valid (user_id v1) → UUID.valid (user_id v2) →
  (∀ n, internal_layer_table_name USER_DATA_SCHEMA v1 = inr n →
        internal_layer_table_name USER_DATA_SCHEMA v2 = inr n →
        user_id v1 = user_id v2
        ∧ (type v1 = "feature" → type v2 = "feature" →
           feature_layer_geometry_type v1 = feature_layer_geometry_type v2)
        ∧ (type v1 = "table" → type v2 = "feature" →
           feature_layer_geometry_type v2 = "no_geometry"))
  ∧ (type v1 = "feature" → type v2 = "feature" →
     user_id v1 = user_id v2 →
     feature_layer_geometry_type v1 = feature_layer_geometry_type v2 →
     internal_layer_table_name USER_DATA_SCHEMA v1
     = internal_layer_table_name USER_DATA_SCHEMA v2)
  ∧ ((∃ msg, internal_layer_table_name USER_DATA_SCHEMA v1 = inl (ValueError msg))
     ↔ type v1 ≠ "feature" ∧ type v1 ≠ "table")
  ∧ (type v1 = "feature" → feature_layer_geometry_type v1 = "point" →
     internal_layer_table_name USER_DATA_SCHEMA v1
     = inr (table_starting_points USER_DATA_SCHEMA (user_id v1)))
  ∧ (type v1 = "feature" → feature_layer_geometry_type v1 = "polygon" →
     internal_layer_table_name USER_DATA_SCHEMA v1
     = inr (result_table USER_DATA_SCHEMA (user_id v1))).
Proof.
  intros V1 V2. split_and!.
  - intros n (l1 & E1 & H1)%internal_layer_table_name_label
             (l2 & E2 & H2)%internal_layer_table_name_label.
    rewrite E1 in E2.
    apply (layer_table_name_inj l1 l2 _ _ V1 V2) in E2 as [El Eu].
    split; [done|]. split.
    + intros T1 T2. destruct H1 as [[_ <-]|[T1' _]]; [|by rewrite T1 in T1'].
      destruct H2 as [[_ <-]|[T2' _]]; [done|by rewrite T2 in T2'].
    + intros T1 T2. destruct H2 as [[_ <-]|[T2' _]]; [|by rewrite T2 in T2'].
      destruct H1 as [[T1' _]|[_ ->]]; [by rewrite T1 in T1'|done].
  - unfold internal_layer_table_name. intros T1 T2 Eu Eg.
    rewrite !decide_True by done. rewrite Eu, Eg. reflexivity.
  - unfold internal_layer_table_name.
    generalize (TempTables.remove_char "-" (UUID.str (user_id v1))). intros hex.
    destruct (decide (type v1 = "feature")) as [T|T].
    { split; [by intros [? [=]]|by intros [? _]]. }
    destruct (decide (type v1 = "table")) as [T'|T'].
    { split; [by intros [? [=]]|by intros [_ ?]]. }
    split; [done|]. intros _. by eexists.
  - unfold internal_layer_table_name, table_starting_points. intros T G.
    rewrite decide_True by done. rewrite G. reflexivity.
  - unfold internal_layer_table_name, result_table. intros T G.
    rewrite decide_True by done. rewrite G. reflexivity.
Qed.

End layer_table_facts.

Section layer_table_examples.
Import Exec LayerTables LayerTablesFixtures.

Lemma layer_tables_by_user_and_geometry_witness :
  (∀ n, internal_layer_table_name "user_data" stops = inr n →
        internal_layer_table_name "user_data" notes = inr n →
        user_id stops = user_id notes
        ∧ (type stops = "feature" → type notes = "feature" →
           feature_layer_geometry_type stops = feature_layer_geometry_type notes)
        ∧ (type stops = "table" → type notes = "feature" →
           feature_layer_geometry_type notes = "no_geometry"))
  ∧ (type stops = "feature" → type notes = "feature" →
     user_id stops = user_id notes →
     feature_layer_geometry_type stops = feature_layer_geometry_type notes →
     internal_layer_table_name "user_data" stops
     = internal_layer_table_name "user_data" notes)
  ∧ ((∃ msg, internal_layer_table_name "user_data" stops = inl (ValueError msg))
     ↔ type stops ≠ "feature" ∧ type stops ≠ "table")
  ∧ (type stops = "feature" → feature_layer_geometry_type stops = "point" →
     internal_layer_table_name "user_data" stops
     = inr (table_starting_points "user_data" (user_id stops)))
  ∧ (type stops = "feature" → feature_layer_geometry_type stops = "polygon" →
     internal_layer_table_name "user_data" stops
     = inr (result_table "user_data" (user_id stops))).
Proof.
  apply (layer_tables_by_user_and_geometry "user_data" stops notes);
    reflexivity.
Defined.

Example stops_table_name :
  internal_layer_table_name "user_data" stops
  = inr "user_data.point_00000000000000000000000000000001"
  ∧ internal_layer_table_name "user_data" notes
    = inr "user_data.no_geometry_00000000000000000000000000000002".
Proof. split; vm_compute; reflexivity. Qed.

End layer_table_examples.

(** ** Map styles of the thumbnails *)

Section print_facts.
Import Exec Print.

Lemma format_02x_byte (n : nat) :
  (n < 256)%nat →
  format_02x (Z.of_nat n) = UUID.hex_digits 2 (N.of_nat n).
Proof.
  intros Hn.
  assert (H : forallb (λ n, bool_decide
                (format_02x (Z.of_nat n) = UUID.hex_digits 2 (N.of_nat n)))
              (seq 0 256) = true) by (vm_compute; reflexivity).
  rewrite forallb_forall in H.
  eapply bool_decide_eq_true_1, H, in_seq. lia.
Qed.

Lemma all_chars_app P (s t : string) :
  TempTables.all_chars P (s +:+ t)
  = TempTables.all_chars P s && TempTables.all_chars P t.
Proof.
  induction s as [|c s IH]; [done|].
  change (P c && TempTables.all_chars P (s +:+ t)
          = P c && TempTables.all_chars P s && TempTables.all_chars P t).
  by rewrite IH, andb_assoc.
Qed.

Lemma hex_digits_2_inj (x y : N) :
  (x < 256)%N → (y < 256)%N →
  UUID.hex_digits 2 x = UUID.hex_digits 2 y → x = y.
Proof.
  intros Hx Hy H%hex_digits_inj.
  change (16 ^ N.of_nat 2)%N with 256%N in H.
  by rewrite !N.mod_small in H.
Qed.

(** X14: a colour whose three components lie between 0 and 255 is written
    as [#] followed by exactly six hexadecimal digits, two for each
    component, and different colours are written differently. *)
Theorem rgb_to_hex_bytes (r g b : Z) :
  0 ≤ r ≤ 255 → 0 ≤ g ≤ 255 → 0 ≤ b ≤ 255 →
  ∃ digits,
    rgb_to_hex [r; g; b] = inr (String "#" digits)
    ∧ String.length digits = 6%nat
    ∧ TempTables.all_chars UUID.is_hex digits = true
    ∧ ∀ r' g' b', 0 ≤ r' ≤ 255 → 0 ≤ g' ≤ 255 → 0 ≤ b' ≤ 255 →
        rgb_to_hex [r'; g'; b'] = inr (String "#" digits) →
        r' = r ∧ g' = g ∧ b' = b.
Proof.
  assert (Hform : ∀ x, 0 ≤ x ≤ 255 →
            format_02x x = UUID.hex_digits 2 (Z.to_N x) ∧ (Z.to_N x < 256)%N).
  { intros x Hx. split; [|lia].
    rewrite <- (Z2Nat.id x) at 1 by lia.
    rewrite format_02x_byte by lia. f_equal. lia. }
  intros Hr Hg Hb.
  destruct (Hform r Hr) as [Er Br], (Hform g Hg) as [Eg Bg],
    (Hform b Hb) as [Eb Bb].
  exists (UUID.hex_digits 2 (Z.to_N r) +:+ UUID.hex_digits 2 (Z.to_N g)
          +:+ UUID.hex_digits 2 (Z.to_N b)).
  split_and!.
  - unfold rgb_to_hex. by rewrite Er, Eg, Eb.
  - by rewrite !append_length, !hex_digits_length.
  - by rewrite !all_chars_app, !hex_digits_all_hex.
  - intros r' g' b' Hr' Hg' Hb'.
    destruct (Hform r' Hr') as [Er' Br'], (Hform g' Hg') as [Eg' Bg'],
      (Hform b' Hb') as [Eb' Bb'].
    unfold rgb_to_hex. rewrite Er', Eg', Eb'.
    pose proof (hex_digits_length 2 (Z.to_N g)) as Lg.
    pose proof (hex_digits_length 2 (Z.to_N b)) as Lb.
    pose proof (hex_digits_length 2 (Z.to_N g')) as Lg'.
    pose proof (hex_digits_length 2 (Z.to_N b')) as Lb'.
    pose proof (hex_digits_2_inj (Z.to_N r') (Z.to_N r) Br' Br) as Ir.
    pose proof (hex_digits_2_inj (Z.to_N g') (Z.to_N g) Bg' Bg) as Ig.
    pose proof (hex_digits_2_inj (Z.to_N b') (Z.to_N b) Bb' Bb) as Ib.
    revert Lg Lb Lg' Lb' Ir Ig Ib.
    generalize (UUID.hex_digits 2 (Z.to_N r)) (UUID.hex_digits 2 (Z.to_N g))
      (UUID.hex_digits 2 (Z.to_N b)) (UUID.hex_digits 2 (Z.to_N r'))
      (UUID.hex_digits 2 (Z.to_N g')) (UUID.hex_digits 2 (Z.to_N b')).
    intros hr hg hb hr' hg' hb' Lg Lb Lg' Lb' Ir Ig Ib [= E].
    apply (append_inj_suffix hr' hr (hg' +:+ hb') (hg +:+ hb)) in E as [E1 E];
      [|by rewrite !append_length, Lg, Lb, Lg', Lb'].
    apply (append_inj_suffix hg' hg hb' hb) in E as [E2 E3];
      [|by rewrite Lb, Lb'].
    specialize (Ir E1). specialize (Ig E2). specialize (Ib E3). lia.
Qed.

End print_facts.

Section mapbox_facts.
Import Exec Print.

Lemma color_steps_spec (all_colors : list string) (breaks : list (option Q)) :
  (length breaks + 1 = length all_colors)%nat →
  ∀ remaining index, drop index all_colors = remaining →
  ∃ steps,
    color_steps all_colors breaks index remaining = inr steps
    ∧ length (mjoin steps) = (2 * length remaining - 1)%nat
    ∧ (∀ j c, remaining !! j = Some c →
         mjoin steps !! (2 * j)%nat = Some (Str c))
    ∧ (∀ j stop, breaks !! (index + j)%nat = Some stop →
         mjoin steps !! (2 * j + 1)%nat = Some (Num (or_zero stop))).
Proof.
  intros Hlen remaining.
  induction remaining as [|color remaining IH]; intros index Hdrop.
  - exists []. split_and!; [done|done|done|].
    intros j stop Hstop. apply lookup_lt_Some in Hstop.
    apply (f_equal length) in Hdrop. rewrite length_drop in Hdrop.
    simpl in Hdrop. lia.
  - assert (Hcolor : all_colors !! index = Some color).
    { rewrite <- (Nat.add_0_r index), <- lookup_drop, Hdrop. done. }
    assert (Hrest : drop (S index) all_colors = remaining).
    { erewrite drop_S in Hdrop by done. by injection Hdrop. }
    assert (Hcount : (index + S (length remaining) = length all_colors)%nat).
    { apply (f_equal length) in Hdrop. rewrite length_drop in Hdrop.
      simpl in Hdrop. apply lookup_lt_Some in Hcolor. lia. }
    destruct (IH (S index) Hrest) as (steps & Esteps & Hsize & Hcolors & Hstops).
    cbn [color_steps]. rewrite Hcolor.
    destruct (decide (index = length all_colors - 1)%nat) as [Hlast|Hmore].
    + assert (remaining = []) as -> by (apply length_zero_iff_nil; lia).
      simpl in Esteps. injection Esteps as <-. simpl.
      exists [[Str color]]. split_and!; [done|done| |].
      * intros [|j] c; [by intros [= ->]|done].
      * intros j stop Hstop. apply lookup_lt_Some in Hstop. lia.
    + destruct (lookup_lt_is_Some_2 breaks index) as [stop Hstop]; [lia|].
      rewrite Hstop, Esteps.
      exists ([Str color; Num (or_zero stop)] :: steps).
      split_and!; [done| | |].
      * simpl. rewrite Hsize. simpl. lia.
      * intros [|j] c.
        -- by intros [= ->].
        -- intros Hc. replace (2 * S j)%nat with (S (S (2 * j))) by lia.
           simpl. by apply Hcolors.
      * intros [|j] stop'.
        -- rewrite Nat.add_0_r, Hstop. by intros [= ->].
        -- intros Hs. replace (2 * S j + 1)%nat with (S (S (2 * j + 1))) by lia.
           simpl. apply Hstops.
           by replace (S index + j)%nat with (index + S j)%nat by lia.
Qed.

(** X15: for a classified colour (a field name, at least one colour and
    one break less than colours) the style colour is a Mapbox step
    expression on the field: after the input come the colours in their
    order with the breaks in between, each colour at an even and each break
    at an odd position, a missing or zero break written as 0; no index is
    ever out of range. In every other case the result is no list. *)
Theorem mapbox_step_expression (properties : color_properties) :
  (∀ name cs,
     field_name properties = Some name → name ≠ "" →
     colors properties = Some cs → cs ≠ [] →
     length (breaks properties) = (length cs - 1)%nat →
     ∃ outputs,
       get_mapbox_style_color properties
       = inr (Arr (Str "step" :: Arr [Str "get"; Str name] :: outputs))
       ∧ length outputs = (2 * length cs - 1)%nat
       ∧ (∀ i c, cs !! i = Some c → outputs !! (2 * i)%nat = Some (Str c))
       ∧ (∀ i stop, breaks properties !! i = Some stop →
            outputs !! (2 * i + 1)%nat = Some (Num (or_zero stop))))
  ∧ (∀ items,
       get_mapbox_style_color properties = inr (Arr items) →
       ∃ name cs,
         field_name properties = Some name ∧ name ≠ ""
         ∧ colors properties = Some cs ∧ cs ≠ []
         ∧ length (breaks properties) = (length cs - 1)%nat).
Proof.
  split.
  - intros name cs Hname Hne Hcs Hcolors Hlen.
    unfold get_mapbox_style_color. rewrite Hname, Hcs.
    destruct name as [|a name]; [done|]. destruct cs as [|color cs]; [done|].
    rewrite decide_False by (intros H; by apply H).
    destruct (color_steps_spec (color :: cs) (breaks properties)) with
      (remaining := color :: cs) (index := 0%nat)
      as (steps & -> & Hsize & Hc & Hs); [simpl in *; lia|done|].
    exists (mjoin steps). split_and!; [done|done|done|].
    intros i stop. by apply Hs.
  - intros items. unfold get_mapbox_style_color.
    assert (Hplain : ∀ items,
      (if Py.truthy (solid properties)
       then match rgb_to_hex (default [] (solid properties)) with
            | inl e => inl e
            | inr hex => inr (Str hex)
            end
       else inr (Str "#000000")) ≠ inr (Arr items)).
    { intros items'. destruct (Py.truthy _); [|done]. by destruct (rgb_to_hex _). }
    destruct (field_name properties) as [[|a name]|] eqn:Hname;
      try (by intros ?%Hplain).
    destruct (colors properties) as [[|color cs]|] eqn:Hcs;
      try (by intros ?%Hplain).
    destruct (decide (length (breaks properties) ≠ length (color :: cs) - 1)%nat)
      as [Hne|Heq]; [by intros ?%Hplain|].
    intros _. exists (String a name), (color :: cs).
    split_and!; [done|done|done|done|]. by apply dec_stable.
Qed.

End mapbox_facts.

Section print_examples.
Import Exec Print PrintFixtures.

Example population_style_color :
  get_mapbox_style_color population_style
  = inr (Arr [Str "step"; Arr [Str "get"; Str "population"];
              Str "#fee5d9"; Num (1000 # 1); Str "#fcae91"; Num 0;
              Str "#cb181d"])
  ∧ rgb_to_hex [255; 0; 128] = inr "#ff0080"
  ∧ rgb_to_hex [256; 0; -1] = inr "#10000-1".
Proof. split_and!; vm_compute; reflexivity. Qed.

Lemma rgb_to_hex_bytes_witness :
  ∃ digits,
    rgb_to_hex [255; 0; 128] = inr (String "#" digits)
    ∧ String.length digits = 6%nat
    ∧ TempTables.all_chars UUID.is_hex digits = true
    ∧ ∀ r' g' b', 0 ≤ r' ≤ 255 → 0 ≤ g' ≤ 255 → 0 ≤ b' ≤ 255 →
        rgb_to_hex [r'; g'; b'] = inr (String "#" digits) →
        r' = 255 ∧ g' = 0 ∧ b' = 128.
Proof. apply (rgb_to_hex_bytes 255 0 128); lia. Defined.

Lemma mapbox_step_expression_witness :
  ∃ outputs,
    get_mapbox_style_color population_style
    = inr (Arr (Str "step" :: Arr [Str "get"; Str "population"] :: outputs))
    ∧ length outputs = (2 * 3 - 1)%nat
    ∧ (∀ i c, ["#fee5d9"; "#fcae91"; "#cb181d"] !! i = Some c →
         outputs !! (2 * i)%nat = Some (Str c))
    ∧ (∀ i stop, breaks population_style !! i = Some stop →
         outputs !! (2 * i + 1)%nat = Some (Num (or_zero stop))).
Proof.
  apply (proj1 (mapbox_step_expression population_style) "population"
           ["#fee5d9"; "#fcae91"; "#cb181d"]);
    [reflexivity|discriminate|reflexivity|discriminate|reflexivity].
Defined.

End print_examples.

(** ** The user endpoints *)

Section user_endpoint_facts.
Import Exec UserEndpoint.
Variable get : UUID.t → exception + option User.
Variable raises : call → option string.

(** X16: creating a user either changes nothing (the lookup fails, the user
    exists: 409, or the data tables cannot be created), or returns the new
    user after exactly three calls took effect (data tables, user row, home
    folder), or ends in an exception after the data tables were created; in
    the last case the deletion of the data tables was attempted, and when it
    took effect the answer is a 500 carrying the message of the failed call.
    A failed creation of the home folder deletes the data tables but leaves
    the user row that was created before. *)
Theorem create_user_cleanup (user_id : UUID.t) (d : db) :
  let run := create_user get raises user_id d in
  let user := {| id := user_id |} in
  ∃ new,
    run.2 = d ++ new
    ∧ ((∃ created, run.1 = inr created)
       ↔ new = [CreateUserDataTables user_id; CreateUser user;
                CreateFolder "home" user_id])
    ∧ (∀ created, run.1 = inr created → created = user)
    ∧ (∀ existing, get user_id = inr (Some existing) →
         run = (inl (HTTPException 409 "User already exists"), d))
    ∧ (new = [] ∨ CreateUserDataTables user_id ∈ new)
    ∧ (CreateUserDataTables user_id ∈ new → (∃ e, run.1 = inl e) →
         DeleteUserDataTables user_id ∈ new
         ∨ is_Some (raises (DeleteUserDataTables user_id)))
    ∧ (DeleteUserDataTables user_id ∈ new →
         ∃ msg, run.1 = inl (HTTPException 500 msg)
                ∧ (raises (CreateUser user) = Some msg
                   ∨ raises (CreateFolder "home" user_id) = Some msg))
    ∧ (∀ msg, CreateUser user ∈ new →
         raises (CreateFolder "home" user_id) = Some msg →
         raises (DeleteUserDataTables user_id) = None →
         run = (inl (HTTPException 500 msg),
                d ++ [CreateUserDataTables user_id; CreateUser user;
                      DeleteUserDataTables user_id])).
Proof.
  intros run user. subst run user.
  unfold create_user, try_except, execute, bind, lift, ret, raise.
  destruct (get user_id) as [e|[existing|]] eqn:Hget; simpl.
  1,2: exists []; rewrite app_nil_r; split_and!;
    [done|split; [by intros [? ?]|done]|done|by intros ? [= <-] || done|by left
    |by intros ?%elem_of_nil|by intros ?%elem_of_nil
    |by intros ? ?%elem_of_nil].
  destruct (raises (CreateUserDataTables user_id)) as [m0|] eqn:R0; simpl.
  { exists []. rewrite app_nil_r. split_and!;
      [done|split; [by intros [? ?]|done]|done|done|by left
      |by intros ?%elem_of_nil|by intros ?%elem_of_nil
      |by intros ? ?%elem_of_nil]. }
  destruct (raises (CreateUser {| id := user_id |})) as [m1|] eqn:R1; simpl.
  { destruct (raises (DeleteUserDataTables user_id)) as [m3|] eqn:R3; simpl.
    - exists [CreateUserDataTables user_id]. split_and!; [done| |done|done| | | |].
      + split; [by intros [? ?]|done].
      + right. by left.
      + intros _ _. right. by eexists.
      + intros [= ]%list_elem_of_singleton.
      + intros msg [= ]%list_elem_of_singleton.
    - rewrite <- app_assoc. simpl.
      exists [CreateUserDataTables user_id; DeleteUserDataTables user_id].
      split_and!; [done| |done|done| | | |].
      + split; [by intros [? ?]|done].
      + right. by left.
      + intros _ _. left. by right; left.
      + intros _. exists m1. split; [done|by left].
      + intros msg Hin. repeat (apply elem_of_cons in Hin as [[=]|Hin]).
        by apply elem_of_nil in Hin. }
  destruct (raises (CreateFolder "home" user_id)) as [m2|] eqn:R2; simpl.
  { destruct (raises (DeleteUserDataTables user_id)) as [m3|] eqn:R3; simpl.
    - rewrite <- app_assoc. simpl.
      exists [CreateUserDataTables user_id; CreateUser {| id := user_id |}].
      split_and!; [done| |done|done| | | |].
      + split; [by intros [? ?]|done].
      + right. by left.
      + intros _ _. right. by eexists.
      + intros Hin. repeat (apply elem_of_cons in Hin as [[=]|Hin]).
        by apply elem_of_nil in Hin.
      + done.
    - rewrite <- !app_assoc. simpl.
      exists [CreateUserDataTables user_id; CreateUser {| id := user_id |};
              DeleteUserDataTables user_id].
      split_and!; [done| |done|done| | | |].
      + split; [by intros [? ?]|done].
      + right. by left.
      + intros _ _. left. by right; right; left.
      + intros _. exists m2. split; [done|by right].
      + by intros msg _ [= ->] _. }
  rewrite <- !app_assoc. simpl.
  exists [CreateUserDataTables user_id; CreateUser {| id := user_id |};
          CreateFolder "home" user_id].
  split_and!; [done| | |done| | | |].
  - split; [done|]. intros _. by eexists.
  - by intros ? [= <-].
  - right. by left.
  - by intros _ [? ?].
  - intros Hin. repeat (apply elem_of_cons in Hin as [[=]|Hin]).
    by apply elem_of_nil in Hin.
  - done.
Qed.

End user_endpoint_facts.

Section user_endpoint_examples.
Import Exec UserEndpoint UserEndpointFixtures.

Local Notation run := (create_user no_user folder_fails alice []).

Example create_user_folder_fails :
  run = (inl (HTTPException 500 "folder"),
         [CreateUserDataTables alice; CreateUser {| id := alice |};
          DeleteUserDataTables alice]).
Proof. vm_compute. reflexivity. Qed.

Lemma create_user_cleanup_witness :
  ∃ new,
    run.2 = [] ++ new
    ∧ ((∃ created, run.1 = inr created)
       ↔ new = [CreateUserDataTables alice; CreateUser {| id := alice |};
                CreateFolder "home" alice])
    ∧ (∀ created, run.1 = inr created → created = {| id := alice |})
    ∧ (∀ existing, no_user alice = inr (Some existing) →
         run = (inl (HTTPException 409 "User already exists"), []))
    ∧ (new = [] ∨ CreateUserDataTables alice ∈ new)
    ∧ (CreateUserDataTables alice ∈ new → (∃ e, run.1 = inl e) →
         DeleteUserDataTables alice ∈ new
         ∨ is_Some (folder_fails (DeleteUserDataTables alice)))
    ∧ (DeleteUserDataTables alice ∈ new →
         ∃ msg, run.1 = inl (HTTPException 500 msg)
                ∧ (folder_fails (CreateUser {| id := alice |}) = Some msg
                   ∨ folder_fails (CreateFolder "home" alice) = Some msg))
    ∧ (∀ msg, CreateUser {| id := alice |} ∈ new →
         folder_fails (CreateFolder "home" alice) = Some msg →
         folder_fails (DeleteUserDataTables alice) = None →
         run = (inl (HTTPException 500 msg),
                [] ++ [CreateUserDataTables alice; CreateUser {| id := alice |};
                       DeleteUserDataTables alice])).
Proof. apply (create_user_cleanup no_user folder_fails alice []). Defined.

End user_endpoint_examples.
